(** * LunarFox launcher script [runconfig.py]

    A shallow embedding of the launcher: the path arithmetic of
    [os.path] as it behaves on a POSIX host ([posixpath]), the
    existence test [os.path.isfile], [subprocess.run(..., check=True)]
    and [print], followed by the properties of [run_executable].

    The library functions follow CPython ([Lib/posixpath.py],
    [Lib/genericpath.py], [Lib/subprocess.py]). A string is a Python
    [str] whose characters have code points below 256, and standard
    output is observed as text, before it is encoded. Three failures
    of the run time are part of the model: [os.getcwd()] raising
    because the working directory was removed, [print] raising
    [UnicodeEncodeError] because the codec of standard output cannot
    encode the text, and the flush of standard output failing when
    the interpreter exits. Outside the model: [print] failing on a
    closed or broken standard output, and signals delivered to the
    launcher while it waits ([KeyboardInterrupt]). *)

From Stdlib Require Import String Ascii List ZArith Bool Lia.
From Stdlib Require Import DecimalString.
Import ListNotations.
Open Scope string_scope.

(** ** Strings

    The few [str] methods the path functions rely on. *)

Module Str.

Definition sep : ascii := "/"%char.

(** [s.startswith('/')] *)
Definition startswith_sep (s : string) : bool :=
  match s with
  | String c _ => Ascii.eqb c sep
  | EmptyString => false
  end.

(** [s.endswith('/')] *)
Fixpoint endswith_sep (s : string) : bool :=
  match s with
  | EmptyString => false
  | String c EmptyString => Ascii.eqb c sep
  | String _ s' => endswith_sep s'
  end.

(** [s == '/' * len(s)] *)
Fixpoint all_sep (s : string) : bool :=
  match s with
  | EmptyString => true
  | String c s' => Ascii.eqb c sep && all_sep s'
  end.

(** [s.rstrip('/')] *)
Fixpoint rstrip_sep (s : string) : string :=
  match s with
  | EmptyString => EmptyString
  | String c s' =>
      match rstrip_sep s' with
      | EmptyString => if Ascii.eqb c sep then EmptyString else String c EmptyString
      | r => String c r
      end
  end.

(** [s.rfind('/')] of the suffix of a string that starts at index
    [pos]: the index of the last separator, or [-1]. *)
Fixpoint rfind_sep_from (s : string) (pos : Z) : Z :=
  match s with
  | EmptyString => (-1)%Z
  | String c s' =>
      let r := rfind_sep_from s' (pos + 1) in
      if (0 <=? r)%Z then r
      else if Ascii.eqb c sep then pos else (-1)%Z
  end.

Definition rfind_sep (s : string) : Z := rfind_sep_from s 0.

(** [s[:i]] for [0 <= i] *)
Definition slice_to (s : string) (i : Z) : string :=
  substring 0 (Z.to_nat i) s.

(** [s.split('/')] *)
Fixpoint split_sep (s : string) : list string :=
  match s with
  | EmptyString => [EmptyString]
  | String c s' =>
      if Ascii.eqb c sep then EmptyString :: split_sep s'
      else match split_sep s' with
           | h :: t => String c h :: t
           | [] => [String c EmptyString]
           end
  end.

(** ['/'.join(comps)] *)
Fixpoint join_sep (comps : list string) : string :=
  match comps with
  | [] => EmptyString
  | [c] => c
  | c :: rest => c ++ "/" ++ join_sep rest
  end.

(** ['/' * n] *)
Fixpoint repeat_sep (n : nat) : string :=
  match n with
  | O => EmptyString
  | S n' => String sep (repeat_sep n')
  end.

(** ["%d" % n] *)
Definition of_Z (n : Z) : string := NilZero.string_of_int (Z.to_int n).

(** [s.isascii()] *)
Fixpoint is_ascii (s : string) : bool :=
  match s with
  | EmptyString => true
  | String c s' => (Nat.ltb (nat_of_ascii c) 128 && is_ascii s')%bool
  end.

(** [sub in s] *)
Definition contains (s sub : string) : Prop :=
  exists pre post, s = pre ++ sub ++ post.

End Str.

(** ** [posixpath]

    [os.path] on a POSIX host. *)

Module posixpath.
Import Str.

(** [isabs(s)]: the path starts with a separator. *)
Definition isabs (s : string) : bool := startswith_sep s.

(** One turn of the loop of [join]: a component that starts with a
    separator replaces what was joined so far; otherwise it is
    appended, after a separator unless the path is empty or already
    ends with one. *)
Definition join_step (path b : string) : string :=
  if startswith_sep b then b
  else if (String.eqb path "" || endswith_sep path)%bool then path ++ b
  else path ++ "/" ++ b.

(** [join(a, *p)] *)
Definition join (a : string) (p : list string) : string :=
  fold_left join_step p a.

(** [dirname(p)] *)
Definition dirname (p : string) : string :=
  let i := (rfind_sep p + 1)%Z in
  let head := slice_to p i in
  if (negb (String.eqb head "") && negb (all_sep head))%bool
  then rstrip_sep head
  else head.

(** The body of the loop of [normpath] over the components. *)
Definition normpath_step (initial_slashes : nat) (new_comps : list string)
    (comp : string) : list string :=
  if (String.eqb comp "" || String.eqb comp ".")%bool then new_comps
  else if (negb (String.eqb comp "..")
           || (Nat.eqb initial_slashes 0 && Nat.eqb (length new_comps) 0)
           || (negb (Nat.eqb (length new_comps) 0)
               && String.eqb (last new_comps "") ".."))%bool
  then new_comps ++ [comp]
  else removelast new_comps.

(** [normpath(path)] *)
Definition normpath (path : string) : string :=
  if String.eqb path "" then "."
  else
    let initial_slashes :=
      if startswith_sep path then
        if (prefix "//" path && negb (prefix "///" path))%bool then 2%nat
        else 1%nat
      else 0%nat in
    let comps := split_sep path in
    let new_comps := fold_left (normpath_step initial_slashes) comps [] in
    let path' := repeat_sep initial_slashes ++ join_sep new_comps in
    if String.eqb path' "" then "." else path'.

(** [abspath(path)], with [cwd] the value of [os.getcwd()]. *)
Definition abspath (cwd path : string) : string :=
  normpath (if isabs path then path else join cwd [path]).

End posixpath.

(** ** The host

    What the script observes of its surroundings and what it does to
    them. *)

(** File types, as [stat.S_IFMT(st.st_mode)] tells them apart.
    [os.stat] follows symbolic links, so a link never shows up here. *)
Inductive file_kind : Type :=
| S_IFREG | S_IFDIR | S_IFCHR | S_IFBLK | S_IFIFO | S_IFSOCK.

Definition S_ISREG (k : file_kind) : bool :=
  match k with S_IFREG => true | _ => false end.

(** What [subprocess.Popen(path)] followed by waiting for the child
    comes to: the child ran and ended with a return code (negative
    when a signal ended it), or the program could not be started and
    the operating system gave an error number. *)
Inductive spawn_outcome : Type :=
| Exited (returncode : Z)
| Launch_failed (errno : Z).

(** Exceptions that travel through the script. *)
Inductive exn : Type :=
| CalledProcessError (returncode : Z) (cmd : string)
| OSError (errno : Z) (filename : string)
| UnicodeEncodeError (object : string).

(** Interactions with the operating system, in the order they happen. *)
Inductive event : Type :=
| Ev_stat (path : string)                  (* os.stat(path) *)
| Ev_print (text : string)                 (* print(text) on standard output *)
| Ev_popen (path : string)                 (* a launch of the program at path *)
| Ev_wait (path : string) (returncode : Z) (* the child was waited for *)
| Ev_traceback (e : exn).                  (* the interpreter reports an uncaught exception on standard error *)

(** The host: where the script is ([__file__]), the working directory,
    and the answers of the operating system, which may depend on all
    that has happened so far. [os_stat] answers [None] when [os.stat]
    raises. [cwd_removed] says that the working directory no longer
    exists, so that [os.getcwd()] raises [FileNotFoundError];
    [stdout_flushes] says whether the text buffered on standard
    output can be written out when the interpreter exits. *)
Record host : Type := {
  file__ : string;
  getcwd : string;
  cwd_removed : bool;
  os_stat : list event -> string -> option file_kind;
  popen : list event -> string -> spawn_outcome;
  stdout_flushes : bool
}.

Inductive result (A : Type) : Type :=
| Ok (a : A)
| Raise (e : exn).
Arguments Ok {A} a.
Arguments Raise {A} e.

(** Computations read the host, extend the trace of events and may
    raise. *)
Definition M (A : Type) : Type := host -> list event -> result A * list event.

Definition ret {A} (a : A) : M A := fun _ t => (Ok a, t).

Definition bind {A B} (m : M A) (k : A -> M B) : M B :=
  fun h t =>
    match m h t with
    | (Ok a, t') => k a h t'
    | (Raise e, t') => (Raise e, t')
    end.

Declare Scope py_scope.
Delimit Scope py_scope with py.
Notation "x <- m ;; k" := (bind m (fun x => k))
  (at level 61, m at next level, right associativity) : py_scope.
Notation "m ;; k" := (bind m (fun _ => k))
  (at level 61, right associativity) : py_scope.
Open Scope py_scope.

Definition raise {A} (e : exn) : M A := fun _ t => (Raise e, t).

Definition emit (e : event) : M unit := fun _ t => (Ok tt, (t ++ [e])%list).

(** [try: body / except ...: handler]: [handler e] is [None] when no
    [except] clause matches [e]. *)
Definition try_except {A} (body : M A) (handler : exn -> option (M A)) : M A :=
  fun h t =>
    match body h t with
    | (Ok a, t') => (Ok a, t')
    | (Raise e, t') =>
        match handler e with
        | Some recover => recover h t'
        | None => (Raise e, t')
        end
    end.

(** The events a computation adds to a trace. *)
Definition emitted {A} (m : M A) (h : host) (t : list event) : list event :=
  skipn (length t) (snd (m h t)).

(** The text on standard output after a sequence of events. *)
Fixpoint stdout_of (t : list event) : string :=
  match t with
  | [] => ""
  | Ev_print text :: t' => text ++ String "010" (stdout_of t')
  | _ :: t' => stdout_of t'
  end.

(** The programs launched in a sequence of events. *)
Fixpoint launches_of (t : list event) : list string :=
  match t with
  | [] => []
  | Ev_popen path :: t' => path :: launches_of t'
  | _ :: t' => launches_of t'
  end.

(** The path an event is about, if any. *)
Definition event_path (e : event) : option string :=
  match e with
  | Ev_stat p | Ev_popen p | Ev_wait p _ => Some p
  | Ev_print _ | Ev_traceback _ => None
  end.

Section Platform.

(** The signal names of the platform ([signal.Signals]): the name of
    a signal number, when it has one. *)
Variable signal_name : Z -> option string.

(** [str(e)] for [e = CalledProcessError(returncode, cmd)]: a child
    ended by a signal (negative return code) is told from one that
    returned a status. *)
Definition CalledProcessError_str (returncode : Z) (cmd : string) : string :=
  if (negb (returncode =? 0) && (returncode <? 0))%Z%bool then
    match signal_name (- returncode) with
    | Some name =>
        "Command '" ++ cmd ++ "' died with <Signals." ++ name ++ ": "
          ++ Str.of_Z (- returncode) ++ ">."
    | None =>
        "Command '" ++ cmd ++ "' died with unknown signal "
          ++ Str.of_Z (- returncode) ++ "."
    end
  else
    "Command '" ++ cmd ++ "' returned non-zero exit status "
      ++ Str.of_Z returncode ++ ".".

(** The codec of standard output: whether it can encode a text that
    has characters beyond ASCII. *)
Variable stdout_encodes : string -> bool.

(** Whether [sys.stdout.write(text)] can encode [text]: ASCII text
    always, other text as the codec allows. *)
Definition stdout_accepts (text : string) : bool :=
  (Str.is_ascii text || stdout_encodes text)%bool.

(** [__file__] *)
Definition dunder_file : M string := fun h t => (Ok (file__ h), t).

(** [os.getcwd()]: [FileNotFoundError] (an [OSError] with [errno] 2
    and no file name) when the working directory was removed. *)
Definition os_getcwd : M string :=
  fun h t =>
    if cwd_removed h then (Raise (OSError 2 ""), t)
    else (Ok (getcwd h), t).

(** [os.path.abspath(path)]: the working directory is asked for only
    when the path is relative. *)
Definition os_path_abspath (path : string) : M string :=
  if posixpath.isabs path then ret (posixpath.normpath path)
  else
    cwd <- os_getcwd ;;
    ret (posixpath.normpath (posixpath.join cwd [path])).

(** [os.path.isfile(path)]: [False] when [os.stat] raises, else
    whether the file is a regular one. *)
Definition os_path_isfile (path : string) : M bool :=
  fun h t =>
    (Ok match os_stat h t path with
        | Some k => S_ISREG k
        | None => false
        end,
     (t ++ [Ev_stat path])%list).

(** [print(text)]: the text and the end of line go to standard
    output, unless the codec cannot encode the text; then
    [UnicodeEncodeError] is raised and nothing is written. *)
Definition print (text : string) : M unit :=
  if stdout_accepts text then emit (Ev_print text)
  else raise (UnicodeEncodeError text).

(** [subprocess.run(args, check=check)] for a program given as one
    string: start it, wait for it, and with [check] raise
    [CalledProcessError] on a return code other than 0. The return
    code of the completed process is the value. *)
Definition subprocess_run (args : string) (check : bool) : M Z :=
  fun h t =>
    match popen h t args with
    | Launch_failed errno => (Raise (OSError errno args), (t ++ [Ev_popen args])%list)
    | Exited retcode =>
        let t' := (t ++ [Ev_popen args; Ev_wait args retcode])%list in
        if (check && negb (retcode =? 0)%Z)%bool
        then (Raise (CalledProcessError retcode args), t')
        else (Ok retcode, t')
    end.

(** [run_executable()] *)
Definition run_executable : M unit :=
  file <- dunder_file ;;
  abs <- os_path_abspath file ;;
  let script_dir := posixpath.dirname abs in
  let relative_path :=
    posixpath.join "obj-x86_64-pc-windows-msvc" ["dist"; "bin"; "lunarfox.exe"] in
  let exe_path := posixpath.join script_dir [relative_path] in
  found <- os_path_isfile exe_path ;;
  if negb found then
    print ("Error: The executable was not found at " ++ exe_path) ;;
    ret tt
  else
    try_except
      (subprocess_run exe_path true ;; ret tt)
      (fun e =>
         match e with
         | CalledProcessError returncode cmd =>
             Some (print ("Error: The executable failed with error "
                          ++ CalledProcessError_str returncode cmd))
         | _ => None
         end).

(** Two calls of [run_executable()], one after the other. *)
Definition run_twice : M unit :=
  run_executable ;; run_executable.

(** The script run as a program ([__name__ == '__main__']): the
    exit status of the interpreter is 0 when [run_executable]
    returns and 1, after a traceback, when an exception leaves it;
    it is 120 instead when text was printed and the flush of standard
    output fails at exit. *)
Definition main (h : host) (t : list event) : Z * list event :=
  let (r, t') := run_executable h t in
  let printed := stdout_of (skipn (length t) t') in
  let flush_failed := (negb (String.eqb printed "") && negb (stdout_flushes h))%bool in
  match r with
  | Ok _ => (if flush_failed then 120%Z else 0%Z, t')
  | Raise e => (if flush_failed then 120%Z else 1%Z, (t' ++ [Ev_traceback e])%list)
  end.

End Platform.

(** ** Names for the statements *)

(** The location of the script: [os.path.abspath(__file__)]. *)
Definition script_location (h : host) : string :=
  posixpath.abspath (getcwd h) (file__ h).

(** The fixed relative suffix. *)
Definition relative_suffix : string :=
  posixpath.join "obj-x86_64-pc-windows-msvc" ["dist"; "bin"; "lunarfox.exe"].

(** The target for a script at location [L]. *)
Definition target_path (L : string) : string :=
  posixpath.join (posixpath.dirname L) [relative_suffix].

(** The target for the script of a host. *)
Definition exe_path (h : host) : string := target_path (script_location h).

(** Whether [os.path.abspath(__file__)] answers: [__file__] is
    absolute, or the working directory is still there. *)
Definition location_resolves (h : host) : bool :=
  (posixpath.isabs (file__ h) || negb (cwd_removed h))%bool.

(** The two reports. *)
Definition not_found_report (p : string) : string :=
  "Error: The executable was not found at " ++ p.

Definition failure_report (signal_name : Z -> option string) (rc : Z) (p : string)
    : string :=
  "Error: The executable failed with error " ++ CalledProcessError_str signal_name rc p.

(** Whether a regular file is at [path] after the events [t]. *)
Definition is_regular_file (h : host) (t : list event) (path : string) : bool :=
  match os_stat h t path with
  | Some k => S_ISREG k
  | None => false
  end.

(** The events of a launch of [p] that ends with status 0. *)
Definition success_events (p : string) : list event :=
  [Ev_stat p; Ev_popen p; Ev_wait p 0%Z].

(** The signal names of Linux on x86. *)
Definition linux_signal_name (n : Z) : option string :=
  match n with
  | 1 => Some "SIGHUP" | 2 => Some "SIGINT" | 3 => Some "SIGQUIT"
  | 4 => Some "SIGILL" | 5 => Some "SIGTRAP" | 6 => Some "SIGABRT"
  | 7 => Some "SIGBUS" | 8 => Some "SIGFPE" | 9 => Some "SIGKILL"
  | 10 => Some "SIGUSR1" | 11 => Some "SIGSEGV" | 12 => Some "SIGUSR2"
  | 13 => Some "SIGPIPE" | 14 => Some "SIGALRM" | 15 => Some "SIGTERM"
  | 16 => Some "SIGSTKFLT" | 17 => Some "SIGCHLD" | 18 => Some "SIGCONT"
  | 19 => Some "SIGSTOP" | 20 => Some "SIGTSTP" | 21 => Some "SIGTTIN"
  | 22 => Some "SIGTTOU" | 23 => Some "SIGURG" | 24 => Some "SIGXCPU"
  | 25 => Some "SIGXFSZ" | 26 => Some "SIGVTALRM" | 27 => Some "SIGPROF"
  | 28 => Some "SIGWINCH" | 29 => Some "SIGIO" | 30 => Some "SIGPWR"
  | 31 => Some "SIGSYS" | 34 => Some "SIGRTMIN" | 64 => Some "SIGRTMAX"
  | _ => None
  end%Z.

(** Two codecs of standard output: UTF-8 encodes every text, ASCII
    none that has a character beyond ASCII. *)
Definition utf8_stdout (text : string) : bool := true.

Definition ascii_stdout (text : string) : bool := false.

(** Hosts for the examples: the script at [/opt/app/runconfig], with
    a given answer of [os.stat] and a given fate of the child. *)
Definition example_host (st : option file_kind) (child : spawn_outcome) : host :=
  {| file__ := "/opt/app/runconfig";
     getcwd := "/home/user";
     cwd_removed := false;
     os_stat := fun _ _ => st;
     popen := fun _ _ => child;
     stdout_flushes := true |}.

(** The same script started as [runconfig] from its own directory,
    as interpreters that leave [__file__] relative have it. *)
Definition relative_host (st : option file_kind) (child : spawn_outcome) : host :=
  {| file__ := "runconfig";
     getcwd := "/opt/app";
     cwd_removed := false;
     os_stat := fun _ _ => st;
     popen := fun _ _ => child;
     stdout_flushes := true |}.

(** The script under a directory whose name has a character beyond
    ASCII ([/opt/caf\u00e9/runconfig]). *)
Definition latin_host (st : option file_kind) (child : spawn_outcome) : host :=
  {| file__ := "/opt/caf" ++ String "233" "/runconfig";
     getcwd := "/home/user";
     cwd_removed := false;
     os_stat := fun _ _ => st;
     popen := fun _ _ => child;
     stdout_flushes := true |}.

(** The script at [/opt/app/runconfig] with standard output sent to
    a file on a full device: what is printed cannot be flushed. *)
Definition full_device_host (st : option file_kind) (child : spawn_outcome) : host :=
  {| file__ := "/opt/app/runconfig";
     getcwd := "/home/user";
     cwd_removed := false;
     os_stat := fun _ _ => st;
     popen := fun _ _ => child;
     stdout_flushes := false |}.

(** The script started as [runconfig] from a directory that has been
    removed since. *)
Definition orphan_host (st : option file_kind) (child : spawn_outcome) : host :=
  {| file__ := "runconfig";
     getcwd := "/opt/app";
     cwd_removed := true;
     os_stat := fun _ _ => st;
     popen := fun _ _ => child;
     stdout_flushes := true |}.

(** ** Further observations of a trace *)

(** The lines printed in a sequence of events. *)
Fixpoint printed_lines (t : list event) : list string :=
  match t with
  | [] => []
  | Ev_print text :: t' => text :: printed_lines t'
  | _ :: t' => printed_lines t'
  end.


(** The children that were waited for. *)
Fixpoint waits_of (t : list event) : list string :=
  match t with
  | [] => []
  | Ev_wait path _ :: t' => path :: waits_of t'
  | _ :: t' => waits_of t'
  end.

(** The same host seen from another working directory. *)
Definition with_cwd (h : host) (cwd : string) : host :=
  {| file__ := file__ h;
     getcwd := cwd;
     cwd_removed := cwd_removed h;
     os_stat := os_stat h;
     popen := popen h;
     stdout_flushes := stdout_flushes h |}.

(** [ '/' in s ] *)
Fixpoint has_sep (s : string) : bool :=
  match s with
  | EmptyString => false
  | String c s' => (Ascii.eqb c Str.sep || has_sep s')%bool
  end.

(** A directory as [dirname] gives it: without a separator at its
    end, unless it is made of separators only. *)
Definition stripped_dir (d : string) : Prop :=
  Str.all_sep d = true \/ Str.endswith_sep d = false.

(** [dirname] applied [n] times. *)
Fixpoint dirname_iter (n : nat) (p : string) : string :=
  match n with
  | O => p
  | S n' => dirname_iter n' (posixpath.dirname p)
  end.

(** ** Path functions on examples *)

Example join_ex : posixpath.join "/opt/app" ["a"; "b"] = "/opt/app/a/b".
Proof. reflexivity. Qed.

Example join_absolute_ex : posixpath.join "/opt/app" ["/a"; "b"] = "/a/b".
Proof. reflexivity. Qed.

Example join_trailing_ex : posixpath.join "/" ["a"] = "/a".
Proof. reflexivity. Qed.

Example dirname_ex : posixpath.dirname "/opt/app/runconfig" = "/opt/app".
Proof. reflexivity. Qed.

Example dirname_root_ex : posixpath.dirname "/runconfig" = "/".
Proof. reflexivity. Qed.

Example dirname_slashes_ex : posixpath.dirname "a//b" = "a".
Proof. reflexivity. Qed.

Example normpath_ex :
  posixpath.normpath "/opt//app/./x/../runconfig" = "/opt/app/runconfig".
Proof. reflexivity. Qed.

Example normpath_up_ex : posixpath.normpath "../a/../../b/" = "../../b".
Proof. reflexivity. Qed.

Example normpath_two_slashes_ex : posixpath.normpath "//a/.." = "//".
Proof. reflexivity. Qed.

Example abspath_ex :
  posixpath.abspath "/home/u" "runconfig.py" = "/home/u/runconfig.py".
Proof. reflexivity. Qed.

Example relative_suffix_ex :
  relative_suffix = "obj-x86_64-pc-windows-msvc/dist/bin/lunarfox.exe".
Proof. reflexivity. Qed.

(** ** The launcher on examples *)

Example run_missing :
  run_executable linux_signal_name utf8_stdout (example_host None (Exited 0)) [] =
  (Ok tt,
   [Ev_stat "/opt/app/obj-x86_64-pc-windows-msvc/dist/bin/lunarfox.exe";
    Ev_print "Error: The executable was not found at /opt/app/obj-x86_64-pc-windows-msvc/dist/bin/lunarfox.exe"]).
Proof. reflexivity. Qed.

Example run_ok :
  run_executable linux_signal_name utf8_stdout (example_host (Some S_IFREG) (Exited 0)) [] =
  (Ok tt,
   [Ev_stat "/opt/app/obj-x86_64-pc-windows-msvc/dist/bin/lunarfox.exe";
    Ev_popen "/opt/app/obj-x86_64-pc-windows-msvc/dist/bin/lunarfox.exe";
    Ev_wait "/opt/app/obj-x86_64-pc-windows-msvc/dist/bin/lunarfox.exe" 0]).
Proof. reflexivity. Qed.

Example run_status_3 :
  stdout_of (snd (run_executable linux_signal_name utf8_stdout
                    (example_host (Some S_IFREG) (Exited 3)) [])) =
  "Error: The executable failed with error Command '/opt/app/obj-x86_64-pc-windows-msvc/dist/bin/lunarfox.exe' returned non-zero exit status 3."
    ++ String "010" "".
Proof. reflexivity. Qed.

Example run_killed :
  stdout_of (snd (run_executable linux_signal_name utf8_stdout
                    (example_host (Some S_IFREG) (Exited (-9))) [])) =
  "Error: The executable failed with error Command '/opt/app/obj-x86_64-pc-windows-msvc/dist/bin/lunarfox.exe' died with <Signals.SIGKILL: 9>."
    ++ String "010" "".
Proof. reflexivity. Qed.

Example run_denied :
  main linux_signal_name utf8_stdout (example_host (Some S_IFREG) (Launch_failed 13)) [] =
  (1%Z,
   [Ev_stat "/opt/app/obj-x86_64-pc-windows-msvc/dist/bin/lunarfox.exe";
    Ev_popen "/opt/app/obj-x86_64-pc-windows-msvc/dist/bin/lunarfox.exe";
    Ev_traceback (OSError 13 "/opt/app/obj-x86_64-pc-windows-msvc/dist/bin/lunarfox.exe")]).
Proof. reflexivity. Qed.

(** ** Traces and substrings *)

Lemma skipn_length_app {A} (t d : list A) : skipn (length t) (t ++ d)%list = d.
Proof. induction t as [| x t IH]; simpl; [reflexivity | exact IH]. Qed.

Lemma contains_intro (pre sub post : string) : Str.contains (pre ++ sub ++ post) sub.
Proof. exists pre, post. reflexivity. Qed.

Lemma string_app_assoc (a b c : string) : (a ++ b) ++ c = a ++ b ++ c.
Proof. induction a as [| x a IH]; simpl; [reflexivity | now rewrite IH]. Qed.

Lemma string_app_nil_r (a : string) : a ++ "" = a.
Proof. induction a as [| x a IH]; simpl; [reflexivity | now rewrite IH]. Qed.

Lemma contains_app_l (s sub post : string) :
  Str.contains s sub -> Str.contains (s ++ post) sub.
Proof.
  intros (pre & post' & ->). exists pre, (post' ++ post).
  now rewrite !string_app_assoc.
Qed.

Lemma contains_app_r (pre s sub : string) :
  Str.contains s sub -> Str.contains (pre ++ s) sub.
Proof.
  intros (pre' & post & ->). exists (pre ++ pre'), post.
  now rewrite !string_app_assoc.
Qed.

Lemma contains_refl (s : string) : Str.contains s s.
Proof. exists "", "". simpl. now rewrite string_app_nil_r. Qed.

Create HintDb strs.

#[local] Hint Resolve contains_refl contains_app_l contains_app_r : strs.

(** ** The shape of the target *)

(** The suffix is relative, so [join] never drops the directory: the
    target is the directory of the script, a separator unless the
    directory is empty or ends with one, and the suffix. *)
Lemma target_path_explicit (L : string) :
  target_path L =
  posixpath.dirname L
    ++ (if (String.eqb (posixpath.dirname L) "" ||
            Str.endswith_sep (posixpath.dirname L))%bool then "" else "/")
    ++ "obj-x86_64-pc-windows-msvc/dist/bin/lunarfox.exe".
Proof.
  unfold target_path, posixpath.join. cbn [fold_left].
  unfold posixpath.join_step.
  change (Str.startswith_sep relative_suffix) with false. cbv iota.
  change relative_suffix with "obj-x86_64-pc-windows-msvc/dist/bin/lunarfox.exe".
  now destruct (String.eqb (posixpath.dirname L) "" ||
                Str.endswith_sep (posixpath.dirname L))%bool.
Qed.

(** ** The launcher, case by case *)

Section Launcher.

Variable signal_name : Z -> option string.
Variable stdout_encodes : string -> bool.

(** [os.path.abspath(__file__)] answers the script location, or
    raises when [__file__] is relative and the working directory is
    gone. *)
Lemma os_path_abspath_cases (h : host) (t : list event) :
  os_path_abspath (file__ h) h t =
  if location_resolves h then (Ok (script_location h), t)
  else (Raise (OSError 2 ""), t).
Proof.
  unfold os_path_abspath, location_resolves, script_location, posixpath.abspath.
  destruct (posixpath.isabs (file__ h)); [reflexivity |].
  unfold bind, os_getcwd, ret. now destruct (cwd_removed h).
Qed.

(** [run_executable] by cases on the script location, on the file
    test, on the fate of the child and on the codec of standard
    output. *)
Lemma run_executable_cases (h : host) (t : list event) :
  run_executable signal_name stdout_encodes h t =
  if location_resolves h then
    let p := exe_path h in
    if is_regular_file h t p then
      match popen h (t ++ [Ev_stat p])%list p with
      | Launch_failed errno =>
          (Raise (OSError errno p), (t ++ [Ev_stat p; Ev_popen p])%list)
      | Exited rc =>
          if (rc =? 0)%Z then
            (Ok tt, (t ++ [Ev_stat p; Ev_popen p; Ev_wait p rc])%list)
          else if stdout_accepts stdout_encodes (failure_report signal_name rc p) then
            (Ok tt,
             (t ++ [Ev_stat p; Ev_popen p; Ev_wait p rc;
                    Ev_print (failure_report signal_name rc p)])%list)
          else
            (Raise (UnicodeEncodeError (failure_report signal_name rc p)),
             (t ++ [Ev_stat p; Ev_popen p; Ev_wait p rc])%list)
      end
    else if stdout_accepts stdout_encodes (not_found_report p) then
      (Ok tt, (t ++ [Ev_stat p; Ev_print (not_found_report p)])%list)
    else
      (Raise (UnicodeEncodeError (not_found_report p)), (t ++ [Ev_stat p])%list)
  else (Raise (OSError 2 ""), t).
Proof.
  unfold run_executable.
  unfold bind at 1. unfold dunder_file.
  unfold bind at 1. rewrite os_path_abspath_cases.
  destruct (location_resolves h); [| reflexivity].
  cbv zeta.
  change (posixpath.join (posixpath.dirname (script_location h))
            [posixpath.join "obj-x86_64-pc-windows-msvc"
               ["dist"; "bin"; "lunarfox.exe"]])
    with (exe_path h).
  unfold is_regular_file, failure_report, not_found_report.
  generalize (exe_path h) as p. intro p.
  unfold bind, os_path_isfile, try_except, subprocess_run, print, emit, raise, ret.
  destruct (os_stat h t p) as [k |]; [destruct (S_ISREG k) |]; cbn [negb];
    try (destruct (stdout_accepts stdout_encodes
                     ("Error: The executable was not found at " ++ p));
         rewrite <- ?app_assoc; reflexivity).
  destruct (popen h (t ++ [Ev_stat p])%list p) as [rc | errno]; cbn [andb].
  - destruct (rc =? 0)%Z; cbn [negb].
    + rewrite <- !app_assoc. reflexivity.
    + destruct (stdout_accepts stdout_encodes
                  ("Error: The executable failed with error "
                   ++ CalledProcessError_str signal_name rc p));
        rewrite <- !app_assoc; reflexivity.
  - rewrite <- app_assoc. reflexivity.
Qed.

(** Case analysis on a run. *)
Ltac run_cases h t :=
  unfold emitted; rewrite ?run_executable_cases; cbv zeta;
  destruct (location_resolves h) eqn:Hloc;
  [ destruct (is_regular_file h t (exe_path h)) eqn:Hreg;
    [ destruct (popen h (t ++ [Ev_stat (exe_path h)])%list (exe_path h))
        as [rc | errno] eqn:Hchild;
      [ destruct (rc =? 0)%Z eqn:Hrc;
        [ | destruct (stdout_accepts stdout_encodes
                        (failure_report signal_name rc (exe_path h))) eqn:Hprint ]
      | ]
    | destruct (stdout_accepts stdout_encodes (not_found_report (exe_path h)))
        eqn:Hprint ]
  | ];
  cbn [fst snd]; rewrite ?skipn_length_app, ?skipn_all.

(** The trace only grows: a run appends its events. *)
Lemma run_executable_extends (h : host) (t : list event) :
  snd (run_executable signal_name stdout_encodes h t) =
  (t ++ emitted (run_executable signal_name stdout_encodes) h t)%list.
Proof.
  unfold emitted. rewrite run_executable_cases. cbv zeta.
  destruct (location_resolves h);
    [ destruct (is_regular_file h t (exe_path h));
      [ destruct (popen _ _ _) as [rc | errno];
        [ destruct (rc =? 0)%Z; [| destruct (stdout_accepts _ _)] |]
      | destruct (stdout_accepts _ _) ]
    | ];
    cbn [snd]; rewrite ?skipn_length_app; try reflexivity.
  rewrite skipn_all. now rewrite app_nil_r.
Qed.

(** The events of a run when no regular file is at the target and
    standard output takes the report. *)
Lemma run_executable_not_found (h : host) (t : list event) :
  location_resolves h = true ->
  is_regular_file h t (exe_path h) = false ->
  run_executable signal_name stdout_encodes h t =
  if stdout_accepts stdout_encodes (not_found_report (exe_path h)) then
    (Ok tt,
     (t ++ [Ev_stat (exe_path h); Ev_print (not_found_report (exe_path h))])%list)
  else
    (Raise (UnicodeEncodeError (not_found_report (exe_path h))),
     (t ++ [Ev_stat (exe_path h)])%list).
Proof.
  intros Hloc Hreg. rewrite run_executable_cases. cbv zeta.
  now rewrite Hloc, Hreg.
Qed.

(** The text of a report of a missing file holds the path. *)
Lemma not_found_report_contains (p : string) :
  Str.contains
    (stdout_of [Ev_stat p; Ev_print ("Error: The executable was not found at " ++ p)])
    p.
Proof.
  cbn [stdout_of].
  exists "Error: The executable was not found at ", (String "010" "").
  now rewrite string_app_assoc.
Qed.

(** The text of [str(e)] holds the command and the number of the
    status or of the signal. *)
Lemma CalledProcessError_str_contains (rc : Z) (cmd : string) :
  Str.contains (CalledProcessError_str signal_name rc cmd) cmd /\
  Str.contains (CalledProcessError_str signal_name rc cmd) (Str.of_Z (Z.abs rc)).
Proof.
  unfold CalledProcessError_str.
  destruct (negb (rc =? 0)%Z && (rc <? 0)%Z)%bool eqn:Hneg.
  - apply andb_true_iff in Hneg as [_ Hlt]. apply Z.ltb_lt in Hlt.
    replace (Z.abs rc) with (- rc)%Z by lia.
    destruct (signal_name (- rc)) as [name |]; split.
    + exists "Command '",
        ("' died with <Signals." ++ name ++ ": " ++ Str.of_Z (- rc) ++ ">.").
      reflexivity.
    + exists ("Command '" ++ cmd ++ "' died with <Signals." ++ name ++ ": "), ">.".
      now rewrite !string_app_assoc.
    + exists "Command '", ("' died with unknown signal " ++ Str.of_Z (- rc) ++ ".").
      reflexivity.
    + exists ("Command '" ++ cmd ++ "' died with unknown signal "), ".".
      now rewrite !string_app_assoc.
  - assert (0 <= rc)%Z as Hpos.
    { apply andb_false_iff in Hneg as [Hz | Hlt].
      - apply negb_false_iff, Z.eqb_eq in Hz. lia.
      - apply Z.ltb_ge in Hlt. exact Hlt. }
    replace (Z.abs rc) with rc by lia.
    split.
    + exists "Command '", ("' returned non-zero exit status " ++ Str.of_Z rc ++ ".").
      reflexivity.
    + exists ("Command '" ++ cmd ++ "' returned non-zero exit status "), ".".
      now rewrite !string_app_assoc.
Qed.

(** Text was printed exactly when some line was. *)
Lemma stdout_of_nonempty (l : list event) :
  printed_lines l <> [] -> String.eqb (stdout_of l) "" = false.
Proof.
  induction l as [| e l IH]; cbn; [congruence |].
  destruct e; cbn; try exact IH.
  intros _. now destruct text.
Qed.

Lemma stdout_of_empty (l : list event) :
  printed_lines l = [] -> stdout_of l = "".
Proof.
  induction l as [| e l IH]; cbn; [reflexivity |].
  destruct e; cbn; try exact IH. discriminate.
Qed.

(** The exit status of the script from the result of the run and
    what it printed. *)
Lemma main_cases (h : host) (t : list event) :
  main signal_name stdout_encodes h t =
  let flush_failed :=
    (negb (String.eqb
             (stdout_of (emitted (run_executable signal_name stdout_encodes) h t)) "")
     && negb (stdout_flushes h))%bool in
  match fst (run_executable signal_name stdout_encodes h t) with
  | Ok _ =>
      (if flush_failed then 120%Z else 0%Z,
       snd (run_executable signal_name stdout_encodes h t))
  | Raise e =>
      (if flush_failed then 120%Z else 1%Z,
       (snd (run_executable signal_name stdout_encodes h t) ++ [Ev_traceback e])%list)
  end.
Proof.
  unfold main, emitted.
  now destruct (run_executable signal_name stdout_encodes h t) as [[v | e] t'].
Qed.

(** ** The target path *)

(** C1. For every script location [L], the first thing
    [run_executable] does is to look at the path
    [join(dirname(L), R)], with [R] the join of
    ['obj-x86_64-pc-windows-msvc'], ['dist'], ['bin'] and
    ['lunarfox.exe'], and every path it hands to the operating
    system is that one: the target is a function of [L] alone,
    whatever the file system answers and whatever the child does. *)
Theorem run_executable_target_path (h : host) (t : list event) (L : string) :
  location_resolves h = true ->
  script_location h = L ->
  let R := posixpath.join "obj-x86_64-pc-windows-msvc" ["dist"; "bin"; "lunarfox.exe"] in
  let target := posixpath.join (posixpath.dirname L) [R] in
  hd_error (emitted (run_executable signal_name stdout_encodes) h t) =
    Some (Ev_stat target) /\
  (forall e p,
      In e (emitted (run_executable signal_name stdout_encodes) h t) ->
      event_path e = Some p -> p = target).
Proof.
  intros Hres HL R target.
  assert (exe_path h = target) as Hp by (unfold exe_path; now rewrite HL).
  unfold emitted. rewrite run_executable_cases. cbv zeta. rewrite Hres, Hp.
  generalize target as p. intro p.
  destruct (is_regular_file h t p);
    [ destruct (popen _ _ _) as [rc | errno];
      [ destruct (rc =? 0)%Z; [| destruct (stdout_accepts _ _)] |]
    | destruct (stdout_accepts _ _) ];
    cbn [snd]; rewrite skipn_length_app; (split; [reflexivity |]);
    intros e q Hin Hq; cbn [In] in Hin;
    repeat (destruct Hin as [<- | Hin]; [cbn in Hq; congruence |]);
    contradiction.
Qed.

(** ** Missing executable *)

(** C2, as amended. When the script location resolves and no file
    exists at the target ([os.stat] fails there), [run_executable]
    launches nothing. When standard output can encode the report, it
    prints one report that holds the path and returns, and the script
    ends with status 0 if the output can be flushed at exit (120 if
    not). When standard output cannot encode the report, [print]
    raises [UnicodeEncodeError], nothing is printed and the exception
    leaves the function. *)
Theorem run_executable_missing (h : host) (t : list event) :
  location_resolves h = true ->
  os_stat h t (exe_path h) = None ->
  launches_of (emitted (run_executable signal_name stdout_encodes) h t) = [] /\
  (stdout_accepts stdout_encodes
     ("Error: The executable was not found at " ++ exe_path h) = true ->
   run_executable signal_name stdout_encodes h t =
     (Ok tt,
      (t ++ [Ev_stat (exe_path h);
             Ev_print ("Error: The executable was not found at " ++ exe_path h)])%list) /\
   Str.contains (stdout_of (emitted (run_executable signal_name stdout_encodes) h t))
     (exe_path h) /\
   fst (main signal_name stdout_encodes h t) =
     (if stdout_flushes h then 0 else 120)%Z) /\
  (stdout_accepts stdout_encodes
     ("Error: The executable was not found at " ++ exe_path h) = false ->
   run_executable signal_name stdout_encodes h t =
     (Raise (UnicodeEncodeError
               ("Error: The executable was not found at " ++ exe_path h)),
      (t ++ [Ev_stat (exe_path h)])%list) /\
   stdout_of (emitted (run_executable signal_name stdout_encodes) h t) = "").
Proof.
  intros Hloc Hstat.
  assert (is_regular_file h t (exe_path h) = false) as Hreg
      by (unfold is_regular_file; now rewrite Hstat).
  pose proof (run_executable_not_found h t Hloc Hreg) as Hrun.
  unfold not_found_report in Hrun.
  destruct (stdout_accepts stdout_encodes
              ("Error: The executable was not found at " ++ exe_path h)) eqn:Hprint.
  - rewrite main_cases. unfold emitted. rewrite Hrun. cbn [snd fst].
    rewrite skipn_length_app.
    split; [reflexivity |]. split; [| discriminate]. intros _.
    split; [reflexivity |]. split; [apply not_found_report_contains |].
    rewrite stdout_of_nonempty by (cbn; discriminate).
    now destruct (stdout_flushes h).
  - unfold emitted. rewrite Hrun. cbn [snd].
    rewrite skipn_length_app.
    split; [reflexivity |]. split; [discriminate |]. intros _.
    split; reflexivity.
Qed.

(** C9, as amended. A launch needs a regular file: whenever
    [run_executable] launches something, [os.stat] found a regular
    file at the target; and when something that is not a regular file
    (a directory, say) is there, [run_executable] takes the branch of
    the missing executable: it launches nothing, and it reports the
    path and returns when standard output can encode the report;
    when it cannot, [print] raises [UnicodeEncodeError] and nothing
    is printed. *)
Theorem run_executable_not_regular (h : host) (t : list event) :
  (launches_of (emitted (run_executable signal_name stdout_encodes) h t) <> [] ->
   os_stat h t (exe_path h) = Some S_IFREG) /\
  (forall k,
      location_resolves h = true ->
      os_stat h t (exe_path h) = Some k ->
      k <> S_IFREG ->
      launches_of (emitted (run_executable signal_name stdout_encodes) h t) = [] /\
      (stdout_accepts stdout_encodes
         ("Error: The executable was not found at " ++ exe_path h) = true ->
       run_executable signal_name stdout_encodes h t =
         (Ok tt,
          (t ++ [Ev_stat (exe_path h);
                 Ev_print ("Error: The executable was not found at "
                           ++ exe_path h)])%list) /\
       Str.contains
         (stdout_of (emitted (run_executable signal_name stdout_encodes) h t))
         (exe_path h)) /\
      (stdout_accepts stdout_encodes
         ("Error: The executable was not found at " ++ exe_path h) = false ->
       run_executable signal_name stdout_encodes h t =
         (Raise (UnicodeEncodeError
                   ("Error: The executable was not found at " ++ exe_path h)),
          (t ++ [Ev_stat (exe_path h)])%list) /\
       stdout_of (emitted (run_executable signal_name stdout_encodes) h t) = "")).
Proof.
  split.
  - destruct (location_resolves h) eqn:Hloc.
    + destruct (is_regular_file h t (exe_path h)) eqn:Hreg.
      * intros _. unfold is_regular_file in Hreg.
        destruct (os_stat h t (exe_path h)) as [[] |]; now try discriminate Hreg.
      * unfold emitted. rewrite (run_executable_not_found h t Hloc Hreg).
        destruct (stdout_accepts _ _); cbn [snd]; rewrite skipn_length_app;
          intros Hlaunch; now contradiction Hlaunch.
    + unfold emitted. rewrite run_executable_cases, Hloc. cbn [snd].
      rewrite skipn_all. intros Hlaunch. now contradiction Hlaunch.
  - intros k Hloc Hstat Hk.
    assert (is_regular_file h t (exe_path h) = false) as Hreg.
    { unfold is_regular_file. rewrite Hstat. destruct k; try reflexivity.
      now contradiction Hk. }
    pose proof (run_executable_not_found h t Hloc Hreg) as Hrun.
    unfold not_found_report in Hrun.
    destruct (stdout_accepts stdout_encodes
                ("Error: The executable was not found at " ++ exe_path h)).
    + unfold emitted. rewrite Hrun. cbn [snd]. rewrite skipn_length_app.
      split; [reflexivity |]. split; [| discriminate]. intros _.
      split; [reflexivity | apply not_found_report_contains].
    + unfold emitted. rewrite Hrun. cbn [snd]. rewrite skipn_length_app.
      split; [reflexivity |]. split; [discriminate |]. intros _.
      split; reflexivity.
Qed.

(** ** Launches *)

(** The events of a run that finds a regular file and whose child
    ends with status 0. *)
Lemma run_executable_exited_0 (h : host) (t : list event) :
  location_resolves h = true ->
  is_regular_file h t (exe_path h) = true ->
  popen h (t ++ [Ev_stat (exe_path h)])%list (exe_path h) = Exited 0 ->
  run_executable signal_name stdout_encodes h t =
  (Ok tt,
   (t ++ [Ev_stat (exe_path h); Ev_popen (exe_path h); Ev_wait (exe_path h) 0])%list).
Proof.
  intros Hloc Hreg Hchild. rewrite run_executable_cases. cbv zeta.
  now rewrite Hloc, Hreg, Hchild.
Qed.

(** The events of a run that finds a regular file and whose child
    ends with another status. *)
Lemma run_executable_exited_nonzero (h : host) (t : list event) (rc : Z) :
  location_resolves h = true ->
  is_regular_file h t (exe_path h) = true ->
  popen h (t ++ [Ev_stat (exe_path h)])%list (exe_path h) = Exited rc ->
  rc <> 0%Z ->
  run_executable signal_name stdout_encodes h t =
  if stdout_accepts stdout_encodes (failure_report signal_name rc (exe_path h)) then
    (Ok tt,
     (t ++ [Ev_stat (exe_path h); Ev_popen (exe_path h); Ev_wait (exe_path h) rc;
            Ev_print (failure_report signal_name rc (exe_path h))])%list)
  else
    (Raise (UnicodeEncodeError (failure_report signal_name rc (exe_path h))),
     (t ++ [Ev_stat (exe_path h); Ev_popen (exe_path h);
            Ev_wait (exe_path h) rc])%list).
Proof.
  intros Hloc Hreg Hchild Hrc. rewrite run_executable_cases. cbv zeta.
  apply Z.eqb_neq in Hrc. now rewrite Hloc, Hreg, Hchild, Hrc.
Qed.

Lemma regular_file_stat (h : host) (t : list event) (p : string) :
  os_stat h t p = Some S_IFREG -> is_regular_file h t p = true.
Proof. intros Hstat. unfold is_regular_file. now rewrite Hstat. Qed.

(** C3. When a regular file is at the target and the child ends with
    status 0, [run_executable] launches the target once, waits for
    it, prints nothing and returns; the script ends with status 0. *)
Theorem run_executable_success (h : host) (t : list event) :
  location_resolves h = true ->
  os_stat h t (exe_path h) = Some S_IFREG ->
  popen h (t ++ [Ev_stat (exe_path h)])%list (exe_path h) = Exited 0 ->
  run_executable signal_name stdout_encodes h t =
    (Ok tt,
     (t ++ [Ev_stat (exe_path h); Ev_popen (exe_path h);
            Ev_wait (exe_path h) 0])%list) /\
  launches_of (emitted (run_executable signal_name stdout_encodes) h t) = [exe_path h] /\
  stdout_of (emitted (run_executable signal_name stdout_encodes) h t) = "" /\
  main signal_name stdout_encodes h t =
    (0%Z,
     (t ++ [Ev_stat (exe_path h); Ev_popen (exe_path h);
            Ev_wait (exe_path h) 0])%list).
Proof.
  intros Hloc Hstat Hchild. apply regular_file_stat in Hstat.
  pose proof (run_executable_exited_0 h t Hloc Hstat Hchild) as Hrun.
  rewrite main_cases. unfold emitted. rewrite Hrun. cbn [fst snd].
  rewrite skipn_length_app. repeat split.
Qed.

(** C4, as amended. When a regular file is at the target and the
    child ends with a status other than 0, [run_executable] catches
    the [CalledProcessError]. When standard output can encode the
    report, it prints one report made of
    ["Error: The executable failed with error "] and [str(e)], which
    holds the command and the number of the status (or of the
    signal), and returns; the script ends with status 0 if the output
    can be flushed at exit (120 if not). When standard output cannot
    encode the report, the [print] of the handler raises
    [UnicodeEncodeError], nothing is printed and that exception
    leaves the function. *)
Theorem run_executable_child_failure (h : host) (t : list event) (rc : Z) :
  location_resolves h = true ->
  os_stat h t (exe_path h) = Some S_IFREG ->
  popen h (t ++ [Ev_stat (exe_path h)])%list (exe_path h) = Exited rc ->
  rc <> 0%Z ->
  let report :=
    "Error: The executable failed with error "
      ++ CalledProcessError_str signal_name rc (exe_path h) in
  Str.contains report (exe_path h) /\
  Str.contains report (Str.of_Z (Z.abs rc)) /\
  (stdout_accepts stdout_encodes report = true ->
   run_executable signal_name stdout_encodes h t =
     (Ok tt,
      (t ++ [Ev_stat (exe_path h); Ev_popen (exe_path h);
             Ev_wait (exe_path h) rc; Ev_print report])%list) /\
   stdout_of (emitted (run_executable signal_name stdout_encodes) h t) =
     report ++ String "010" "" /\
   fst (main signal_name stdout_encodes h t) =
     (if stdout_flushes h then 0 else 120)%Z) /\
  (stdout_accepts stdout_encodes report = false ->
   run_executable signal_name stdout_encodes h t =
     (Raise (UnicodeEncodeError report),
      (t ++ [Ev_stat (exe_path h); Ev_popen (exe_path h);
             Ev_wait (exe_path h) rc])%list) /\
   stdout_of (emitted (run_executable signal_name stdout_encodes) h t) = "").
Proof.
  intros Hloc Hstat Hchild Hrc report. apply regular_file_stat in Hstat.
  pose proof (run_executable_exited_nonzero h t rc Hloc Hstat Hchild Hrc) as Hrun.
  unfold failure_report in Hrun. fold report in Hrun.
  destruct (CalledProcessError_str_contains rc (exe_path h)) as [Hcmd Hnum].
  split; [unfold report; auto with strs |].
  split; [unfold report; auto with strs |].
  destruct (stdout_accepts stdout_encodes report).
  - split; [| discriminate]. intros _.
    rewrite main_cases. unfold emitted. rewrite Hrun. cbn [fst snd].
    rewrite skipn_length_app.
    split; [reflexivity |]. split; [reflexivity |].
    rewrite stdout_of_nonempty by (cbn; discriminate).
    now destruct (stdout_flushes h).
  - split; [discriminate |]. intros _.
    unfold emitted. rewrite Hrun. cbn [snd]. rewrite skipn_length_app.
    split; reflexivity.
Qed.

(** C5. When a regular file is at the target and the launch itself
    fails (permission denied, say), [run_executable] has no handler
    for it: the [OSError] leaves the function, nothing is printed,
    and the script ends with a traceback and status 1. *)
Theorem run_executable_launch_fault (h : host) (t : list event) (errno : Z) :
  location_resolves h = true ->
  os_stat h t (exe_path h) = Some S_IFREG ->
  popen h (t ++ [Ev_stat (exe_path h)])%list (exe_path h) = Launch_failed errno ->
  run_executable signal_name stdout_encodes h t =
    (Raise (OSError errno (exe_path h)),
     (t ++ [Ev_stat (exe_path h); Ev_popen (exe_path h)])%list) /\
  stdout_of (emitted (run_executable signal_name stdout_encodes) h t) = "" /\
  main signal_name stdout_encodes h t =
    (1%Z,
     (t ++ [Ev_stat (exe_path h); Ev_popen (exe_path h);
            Ev_traceback (OSError errno (exe_path h))])%list).
Proof.
  intros Hloc Hstat Hchild. apply regular_file_stat in Hstat.
  assert (run_executable signal_name stdout_encodes h t =
          (Raise (OSError errno (exe_path h)),
           (t ++ [Ev_stat (exe_path h); Ev_popen (exe_path h)])%list)) as Hrun.
  { rewrite run_executable_cases. cbv zeta. now rewrite Hloc, Hstat, Hchild. }
  rewrite main_cases. unfold emitted. rewrite Hrun. cbn [fst snd].
  rewrite skipn_length_app, <- app_assoc. repeat split.
Qed.

(** C6, as amended. On the two handled paths (no regular file at the
    target; a child that ends with a status other than 0), when
    standard output can encode the report, the error goes to standard
    output and [run_executable] returns; the script then ends with
    status 0 if the output can be flushed at exit, and with 120 if it
    cannot. A status other than 0 of the script comes either from
    that failed flush after a report was printed, or, as status 1,
    from an exception that leaves [run_executable]: the [OSError] of
    a failed launch, the [UnicodeEncodeError] of a report that
    standard output cannot encode, or the [OSError] of
    [os.getcwd()]. *)
Theorem main_exit_status (h : host) (t : list event) :
  (location_resolves h = true ->
   is_regular_file h t (exe_path h) = false ->
   stdout_accepts stdout_encodes (not_found_report (exe_path h)) = true ->
   fst (run_executable signal_name stdout_encodes h t) = Ok tt /\
   In (Ev_print (not_found_report (exe_path h)))
     (emitted (run_executable signal_name stdout_encodes) h t) /\
   fst (main signal_name stdout_encodes h t) =
     (if stdout_flushes h then 0 else 120)%Z) /\
  (forall rc,
      location_resolves h = true ->
      is_regular_file h t (exe_path h) = true ->
      popen h (t ++ [Ev_stat (exe_path h)])%list (exe_path h) = Exited rc ->
      rc <> 0%Z ->
      stdout_accepts stdout_encodes
        (failure_report signal_name rc (exe_path h)) = true ->
      fst (run_executable signal_name stdout_encodes h t) = Ok tt /\
      In (Ev_print (failure_report signal_name rc (exe_path h)))
        (emitted (run_executable signal_name stdout_encodes) h t) /\
      fst (main signal_name stdout_encodes h t) =
        (if stdout_flushes h then 0 else 120)%Z) /\
  (fst (main signal_name stdout_encodes h t) <> 0%Z ->
   (fst (main signal_name stdout_encodes h t) = 120%Z /\
    stdout_flushes h = false /\
    fst (run_executable signal_name stdout_encodes h t) = Ok tt /\
    printed_lines (emitted (run_executable signal_name stdout_encodes) h t) <> []) \/
   (fst (main signal_name stdout_encodes h t) = 1%Z /\
    exists e,
      fst (run_executable signal_name stdout_encodes h t) = Raise e /\
      ((location_resolves h = false /\ e = OSError 2 "") \/
       (exists errno,
           is_regular_file h t (exe_path h) = true /\
           popen h (t ++ [Ev_stat (exe_path h)])%list (exe_path h)
             = Launch_failed errno /\
           e = OSError errno (exe_path h)) \/
       (exists text,
           stdout_accepts stdout_encodes text = false /\
           e = UnicodeEncodeError text)))).
Proof.
  split; [| split].
  - intros Hloc Hreg Hprint.
    rewrite main_cases. unfold emitted.
    rewrite (run_executable_not_found h t Hloc Hreg), Hprint. cbn [fst snd].
    rewrite skipn_length_app. split; [reflexivity |].
    split; [right; left; reflexivity |].
    rewrite stdout_of_nonempty by (cbn; discriminate).
    now destruct (stdout_flushes h).
  - intros rc Hloc Hreg Hchild Hrc Hprint.
    rewrite main_cases. unfold emitted.
    rewrite (run_executable_exited_nonzero h t rc Hloc Hreg Hchild Hrc), Hprint.
    cbn [fst snd]. rewrite skipn_length_app. split; [reflexivity |].
    split; [right; right; right; left; reflexivity |].
    rewrite stdout_of_nonempty by (cbn; discriminate).
    now destruct (stdout_flushes h).
  - rewrite main_cases. run_cases h t; cbv zeta.
    + (* status 0 of the child *)
      cbn. intros Hexit. now contradiction Hexit.
    + (* report of a failed child, printed *)
      rewrite stdout_of_nonempty by (cbn; discriminate).
      destruct (stdout_flushes h); cbn; intros Hexit;
        [now contradiction Hexit |].
      left. repeat split; discriminate.
    + (* report of a failed child, not encodable *)
      cbn. intros _. right. split; [reflexivity |]. eexists. split; [reflexivity |].
      right. right. eexists. split; [exact Hprint | reflexivity].
    + (* failed launch *)
      cbn. intros _. right. split; [reflexivity |]. eexists. split; [reflexivity |].
      right. left. exists errno. repeat split.
    + (* report of a missing file, printed *)
      rewrite stdout_of_nonempty by (cbn; discriminate).
      destruct (stdout_flushes h); cbn; intros Hexit;
        [now contradiction Hexit |].
      left. repeat split; discriminate.
    + (* report of a missing file, not encodable *)
      cbn. intros _. right. split; [reflexivity |]. eexists. split; [reflexivity |].
      right. right. eexists. split; [exact Hprint | reflexivity].
    + (* no script location *)
      cbn. intros _. right. split; [reflexivity |]. eexists. split; [reflexivity |].
      left. split; reflexivity.
Qed.

(** C7. With the script at [/opt/app/runconfig] the target is
    [/opt/app/obj-x86_64-pc-windows-msvc/dist/bin/lunarfox.exe], and
    when no file is there the one line printed is the error message
    with exactly that path. *)
Theorem scenario_opt_app (h : host) (t : list event) :
  file__ h = "/opt/app/runconfig" ->
  let target := "/opt/app/obj-x86_64-pc-windows-msvc/dist/bin/lunarfox.exe" in
  exe_path h = target /\
  hd_error (emitted (run_executable signal_name stdout_encodes) h t) =
    Some (Ev_stat target) /\
  (os_stat h t target = None ->
   run_executable signal_name stdout_encodes h t =
     (Ok tt,
      (t ++ [Ev_stat target;
             Ev_print "Error: The executable was not found at /opt/app/obj-x86_64-pc-windows-msvc/dist/bin/lunarfox.exe"])%list) /\
   Str.contains (stdout_of (emitted (run_executable signal_name stdout_encodes) h t))
     target).
Proof.
  intros Hfile target.
  assert (exe_path h = target) as Hp.
  { unfold exe_path, script_location. rewrite Hfile. reflexivity. }
  assert (location_resolves h = true) as Hloc
      by (unfold location_resolves; now rewrite Hfile).
  split; [exact Hp |]. split.
  - unfold emitted. rewrite run_executable_cases. cbv zeta. rewrite Hloc, Hp.
    destruct (is_regular_file h t target);
      [ destruct (popen _ _ _) as [rc | errno];
        [ destruct (rc =? 0)%Z; [| destruct (stdout_accepts _ _)] |]
      | destruct (stdout_accepts _ _) ];
      cbn [snd]; now rewrite skipn_length_app.
  - intros Hstat.
    assert (is_regular_file h t (exe_path h) = false) as Hreg
        by (unfold is_regular_file; rewrite Hp; now rewrite Hstat).
    pose proof (run_executable_not_found h t Hloc Hreg) as Hrun.
    rewrite Hp in Hrun.
    change (stdout_accepts stdout_encodes (not_found_report target)) with true in Hrun.
    cbv iota in Hrun.
    unfold emitted. rewrite Hrun. cbn [snd].
    rewrite skipn_length_app.
    split; [reflexivity | apply not_found_report_contains].
Qed.

(** ** Runs side by side *)

(** C8. Two calls in a row, each finding the regular file and each
    child ending with status 0, are two launches that do not touch
    each other: each call returns and adds the same three events
    (test, launch, wait), the second as the first, and nothing is
    printed. *)
Theorem run_twice_independent (h : host) (t : list event) :
  location_resolves h = true ->
  os_stat h t (exe_path h) = Some S_IFREG ->
  popen h (t ++ [Ev_stat (exe_path h)])%list (exe_path h) = Exited 0 ->
  os_stat h (t ++ success_events (exe_path h))%list (exe_path h) = Some S_IFREG ->
  popen h ((t ++ success_events (exe_path h)) ++ [Ev_stat (exe_path h)])%list
    (exe_path h) = Exited 0 ->
  run_twice signal_name stdout_encodes h t =
    (Ok tt,
     (t ++ success_events (exe_path h) ++ success_events (exe_path h))%list) /\
  run_executable signal_name stdout_encodes h t =
    (Ok tt, (t ++ success_events (exe_path h))%list) /\
  run_executable signal_name stdout_encodes h (t ++ success_events (exe_path h))%list =
    (Ok tt,
     ((t ++ success_events (exe_path h)) ++ success_events (exe_path h))%list) /\
  emitted (run_executable signal_name stdout_encodes) h
    (t ++ success_events (exe_path h))%list =
    emitted (run_executable signal_name stdout_encodes) h t /\
  launches_of (emitted (run_twice signal_name stdout_encodes) h t) =
    [exe_path h; exe_path h] /\
  stdout_of (emitted (run_twice signal_name stdout_encodes) h t) = "".
Proof.
  intros Hloc Hstat1 Hchild1 Hstat2 Hchild2.
  apply regular_file_stat in Hstat1, Hstat2.
  pose proof (run_executable_exited_0 h t Hloc Hstat1 Hchild1) as Hrun1.
  pose proof (run_executable_exited_0 h _ Hloc Hstat2 Hchild2) as Hrun2.
  fold (success_events (exe_path h)) in Hrun1, Hrun2.
  assert (run_twice signal_name stdout_encodes h t =
          (Ok tt,
           (t ++ success_events (exe_path h) ++ success_events (exe_path h))%list))
    as Htwice.
  { unfold run_twice, bind. rewrite Hrun1, Hrun2. now rewrite <- app_assoc. }
  unfold emitted. rewrite Htwice, Hrun1, Hrun2. cbn [snd].
  rewrite !skipn_length_app. repeat split.
Qed.


End Launcher.

(** ** The script location and the working directory *)

(** An absolute [__file__] fixes the script location whatever the
    working directory. *)
Lemma script_location_absolute (h1 h2 : host) :
  file__ h1 = file__ h2 ->
  posixpath.isabs (file__ h1) = true ->
  script_location h1 = script_location h2.
Proof.
  intros Hfile Habs. unfold script_location, posixpath.abspath.
  rewrite <- Hfile, Habs. reflexivity.
Qed.

(** A relative [__file__] is resolved against the working directory. *)
Example script_location_relative :
  script_location (relative_host None (Exited 0)) = "/opt/app/runconfig".
Proof. reflexivity. Qed.

(** With a relative [__file__] and the working directory gone,
    nothing happens but the exception of [os.getcwd()]. *)
Example run_orphan :
  main linux_signal_name utf8_stdout (orphan_host (Some S_IFREG) (Exited 0)) [] =
  (1%Z, [Ev_traceback (OSError 2 "")]).
Proof. reflexivity. Qed.

(** ** The theorems at concrete hosts *)

Lemma run_executable_target_path_witness :
  hd_error (emitted (run_executable linux_signal_name utf8_stdout)
              (relative_host (Some S_IFDIR) (Exited 0)) []) =
  Some (Ev_stat "/opt/app/obj-x86_64-pc-windows-msvc/dist/bin/lunarfox.exe").
Proof.
  exact (proj1 (run_executable_target_path linux_signal_name utf8_stdout
                  (relative_host (Some S_IFDIR) (Exited 0)) []
                  "/opt/app/runconfig" eq_refl eq_refl)).
Defined.

Lemma run_executable_missing_witness :
  fst (main linux_signal_name utf8_stdout (example_host None (Exited 0)) []) = 0%Z.
Proof.
  exact (proj2 (proj2
           (proj1 (proj2
              (run_executable_missing linux_signal_name utf8_stdout
                 (example_host None (Exited 0)) [] eq_refl eq_refl))
              eq_refl))).
Defined.

(** C2 as first stated fails: with the script under a directory
    whose name standard output cannot encode and no file at the
    target, [print] raises, nothing is printed, the exception leaves
    [run_executable] and the script ends with status 1. *)
Lemma run_executable_missing_counterexample :
  os_stat (latin_host None (Exited 0)) []
    (exe_path (latin_host None (Exited 0))) = None /\
  run_executable linux_signal_name ascii_stdout (latin_host None (Exited 0)) [] =
    (Raise (UnicodeEncodeError
              ("Error: The executable was not found at /opt/caf"
               ++ String "233" "/obj-x86_64-pc-windows-msvc/dist/bin/lunarfox.exe")),
     [Ev_stat ("/opt/caf"
               ++ String "233" "/obj-x86_64-pc-windows-msvc/dist/bin/lunarfox.exe")]) /\
  fst (run_executable linux_signal_name ascii_stdout (latin_host None (Exited 0)) [])
    <> Ok tt /\
  ~ Str.contains
      (stdout_of (emitted (run_executable linux_signal_name ascii_stdout)
                    (latin_host None (Exited 0)) []))
      (exe_path (latin_host None (Exited 0))) /\
  fst (main linux_signal_name ascii_stdout (latin_host None (Exited 0)) []) = 1%Z.
Proof.
  split; [reflexivity |]. split; [reflexivity |].
  split; [discriminate |]. split; [| reflexivity].
  intros (pre & post & Htext).
  destruct pre; [vm_compute in Htext |]; discriminate Htext.
Qed.

Lemma run_executable_not_regular_witness :
  launches_of (emitted (run_executable linux_signal_name utf8_stdout)
                 (example_host (Some S_IFDIR) (Exited 0)) []) = [].
Proof.
  refine (proj1
            (proj2 (run_executable_not_regular linux_signal_name utf8_stdout
                      (example_host (Some S_IFDIR) (Exited 0)) [])
               S_IFDIR eq_refl eq_refl _)).
  discriminate.
Defined.

(** C9 as first stated fails: with a directory at the target and a
    path standard output cannot encode, the path is not reported:
    [print] raises and nothing is printed. *)
Lemma run_executable_not_regular_counterexample :
  os_stat (latin_host (Some S_IFDIR) (Exited 0)) []
    (exe_path (latin_host (Some S_IFDIR) (Exited 0))) = Some S_IFDIR /\
  run_executable linux_signal_name ascii_stdout
    (latin_host (Some S_IFDIR) (Exited 0)) [] =
    (Raise (UnicodeEncodeError
              ("Error: The executable was not found at /opt/caf"
               ++ String "233" "/obj-x86_64-pc-windows-msvc/dist/bin/lunarfox.exe")),
     [Ev_stat ("/opt/caf"
               ++ String "233" "/obj-x86_64-pc-windows-msvc/dist/bin/lunarfox.exe")]) /\
  printed_lines (emitted (run_executable linux_signal_name ascii_stdout)
                   (latin_host (Some S_IFDIR) (Exited 0)) []) = [] /\
  ~ Str.contains
      (stdout_of (emitted (run_executable linux_signal_name ascii_stdout)
                    (latin_host (Some S_IFDIR) (Exited 0)) []))
      (exe_path (latin_host (Some S_IFDIR) (Exited 0))).
Proof.
  split; [reflexivity |]. split; [reflexivity |]. split; [reflexivity |].
  intros (pre & post & Htext).
  destruct pre; [vm_compute in Htext |]; discriminate Htext.
Qed.

Lemma run_executable_success_witness :
  launches_of (emitted (run_executable linux_signal_name utf8_stdout)
                 (example_host (Some S_IFREG) (Exited 0)) []) =
  ["/opt/app/obj-x86_64-pc-windows-msvc/dist/bin/lunarfox.exe"].
Proof.
  exact (proj1 (proj2
           (run_executable_success linux_signal_name utf8_stdout
              (example_host (Some S_IFREG) (Exited 0)) [] eq_refl eq_refl eq_refl))).
Defined.

Lemma run_executable_child_failure_witness :
  fst (main linux_signal_name utf8_stdout
         (example_host (Some S_IFREG) (Exited 3)) []) = 0%Z.
Proof.
  refine (proj2 (proj2
            (proj1 (proj2 (proj2
               (run_executable_child_failure linux_signal_name utf8_stdout
                  (example_host (Some S_IFREG) (Exited 3)) [] 3
                  eq_refl eq_refl eq_refl _)))
               eq_refl))).
  discriminate.
Defined.

(** C4 as first stated fails: with a regular file at a target whose
    path standard output cannot encode and a child that ends with
    status 1, the [print] of the handler raises: nothing is printed
    and [UnicodeEncodeError] leaves [run_executable]; the script ends
    with status 1. *)
Lemma run_executable_child_failure_counterexample :
  os_stat (latin_host (Some S_IFREG) (Exited 1)) []
    (exe_path (latin_host (Some S_IFREG) (Exited 1))) = Some S_IFREG /\
  popen (latin_host (Some S_IFREG) (Exited 1))
    [Ev_stat (exe_path (latin_host (Some S_IFREG) (Exited 1)))]
    (exe_path (latin_host (Some S_IFREG) (Exited 1))) = Exited 1 /\
  run_executable linux_signal_name ascii_stdout
    (latin_host (Some S_IFREG) (Exited 1)) [] =
    (Raise (UnicodeEncodeError
              ("Error: The executable failed with error Command '/opt/caf"
               ++ String "233" "/obj-x86_64-pc-windows-msvc/dist/bin/lunarfox.exe' returned non-zero exit status 1.")),
     [Ev_stat ("/opt/caf"
               ++ String "233" "/obj-x86_64-pc-windows-msvc/dist/bin/lunarfox.exe");
      Ev_popen ("/opt/caf"
                ++ String "233" "/obj-x86_64-pc-windows-msvc/dist/bin/lunarfox.exe");
      Ev_wait ("/opt/caf"
               ++ String "233" "/obj-x86_64-pc-windows-msvc/dist/bin/lunarfox.exe") 1]) /\
  fst (run_executable linux_signal_name ascii_stdout
         (latin_host (Some S_IFREG) (Exited 1)) []) <> Ok tt /\
  stdout_of (emitted (run_executable linux_signal_name ascii_stdout)
               (latin_host (Some S_IFREG) (Exited 1)) []) = "" /\
  fst (main linux_signal_name ascii_stdout
         (latin_host (Some S_IFREG) (Exited 1)) []) = 1%Z.
Proof.
  split; [reflexivity |]. split; [reflexivity |]. split; [reflexivity |].
  split; [discriminate |]. split; reflexivity.
Qed.

Lemma run_executable_launch_fault_witness :
  stdout_of (emitted (run_executable linux_signal_name utf8_stdout)
               (example_host (Some S_IFREG) (Launch_failed 13)) []) = "".
Proof.
  exact (proj1 (proj2
           (run_executable_launch_fault linux_signal_name utf8_stdout
              (example_host (Some S_IFREG) (Launch_failed 13)) [] 13
              eq_refl eq_refl eq_refl))).
Defined.

Lemma main_exit_status_witness :
  fst (main linux_signal_name utf8_stdout (example_host None (Exited 0)) []) = 0%Z /\
  fst (main linux_signal_name utf8_stdout
         (example_host (Some S_IFREG) (Exited (-9))) []) = 0%Z /\
  fst (main linux_signal_name utf8_stdout
         (full_device_host None (Exited 0)) []) = 120%Z.
Proof.
  split; [| split].
  - exact (proj2 (proj2
             (proj1 (main_exit_status linux_signal_name utf8_stdout
                       (example_host None (Exited 0)) [])
                eq_refl eq_refl eq_refl))).
  - refine (proj2 (proj2
              (proj1 (proj2 (main_exit_status linux_signal_name utf8_stdout
                               (example_host (Some S_IFREG) (Exited (-9))) []))
                 (-9)%Z eq_refl eq_refl eq_refl _ eq_refl))).
    discriminate.
  - destruct (proj2 (proj2 (main_exit_status linux_signal_name utf8_stdout
                              (full_device_host None (Exited 0)) [])))
      as [[Hstatus _] | [Hstatus _]].
    + discriminate.
    + exact Hstatus.
    + discriminate Hstatus.
Defined.

(** C6 as first stated fails: on the handled path of the missing
    executable, with the report printed and [run_executable]
    returned, the script ends with status 120 when standard output
    cannot be flushed at exit: a status other than 0 without any
    exception. *)
Lemma main_exit_status_counterexample :
  is_regular_file (full_device_host None (Exited 0)) []
    (exe_path (full_device_host None (Exited 0))) = false /\
  run_executable linux_signal_name utf8_stdout (full_device_host None (Exited 0)) [] =
    (Ok tt,
     [Ev_stat "/opt/app/obj-x86_64-pc-windows-msvc/dist/bin/lunarfox.exe";
      Ev_print "Error: The executable was not found at /opt/app/obj-x86_64-pc-windows-msvc/dist/bin/lunarfox.exe"]) /\
  fst (main linux_signal_name utf8_stdout (full_device_host None (Exited 0)) [])
    = 120%Z /\
  fst (main linux_signal_name utf8_stdout (full_device_host None (Exited 0)) [])
    <> 0%Z.
Proof.
  split; [reflexivity |]. split; [reflexivity |]. split; [reflexivity |].
  discriminate.
Qed.

Lemma scenario_opt_app_witness :
  exe_path (example_host None (Exited 0)) =
  "/opt/app/obj-x86_64-pc-windows-msvc/dist/bin/lunarfox.exe".
Proof.
  exact (proj1 (scenario_opt_app linux_signal_name utf8_stdout
                  (example_host None (Exited 0)) [] eq_refl)).
Defined.

Lemma run_twice_independent_witness :
  launches_of (emitted (run_twice linux_signal_name utf8_stdout)
                 (example_host (Some S_IFREG) (Exited 0)) []) =
  ["/opt/app/obj-x86_64-pc-windows-msvc/dist/bin/lunarfox.exe";
   "/opt/app/obj-x86_64-pc-windows-msvc/dist/bin/lunarfox.exe"].
Proof.
  exact (proj1 (proj2 (proj2 (proj2 (proj2
           (run_twice_independent linux_signal_name utf8_stdout
              (example_host (Some S_IFREG) (Exited 0)) []
              eq_refl eq_refl eq_refl eq_refl eq_refl)))))).
Defined.


(** ** Separators in strings *)

Lemma string_app_length (a b : string) :
  String.length (a ++ b) = (String.length a + String.length b)%nat.
Proof. induction a as [| x a IH]; simpl; [reflexivity | now rewrite IH]. Qed.

Lemma substring_prefix (a b : string) : substring 0 (String.length a) (a ++ b) = a.
Proof.
  induction a as [| x a IH]; simpl.
  - now destruct b.
  - now rewrite IH.
Qed.

Lemma all_sep_app (a b : string) :
  Str.all_sep (a ++ b) = (Str.all_sep a && Str.all_sep b)%bool.
Proof.
  induction a as [| x a IH]; simpl; [reflexivity |].
  rewrite IH. now rewrite andb_assoc.
Qed.

Lemma endswith_sep_app (a b : string) :
  b <> "" -> Str.endswith_sep (a ++ b) = Str.endswith_sep b.
Proof.
  intros Hb. induction a as [| x a IH]; simpl; [reflexivity |].
  destruct (a ++ b) eqn:Hab.
  - destruct a; simpl in Hab; [now contradiction Hb | discriminate Hab].
  - exact IH.
Qed.

Lemma endswith_sep_snoc (d : string) :
  Str.endswith_sep d = true -> exists x, d = x ++ "/".
Proof.
  induction d as [| c d IH]; simpl; [discriminate |].
  destruct d as [| c' d'].
  - intros Hc. apply Ascii.eqb_eq in Hc. subst c. now exists "".
  - intros Hd. destruct (IH Hd) as [x Hx]. exists (String c x).
    simpl. now rewrite <- Hx.
Qed.

Lemma rstrip_sep_empty (s : string) :
  Str.rstrip_sep s = "" <-> Str.all_sep s = true.
Proof.
  induction s as [| c s IH]; simpl; [tauto |].
  destruct (Str.rstrip_sep s) eqn:Hr.
  - destruct (Ascii.eqb c Str.sep); simpl.
    + split; intros _; [now apply IH | reflexivity].
    + split; discriminate.
  - split; [discriminate |]. intros Hall.
    apply andb_true_iff in Hall as [_ Hall]. apply IH in Hall. discriminate Hall.
Qed.

Lemma rstrip_sep_unchanged (s : string) :
  Str.endswith_sep s = false -> Str.rstrip_sep s = s.
Proof.
  induction s as [| c s IH]; simpl; [reflexivity |].
  destruct s as [| c' s'].
  - intros Hc. simpl. now rewrite Hc.
  - intros Hs. rewrite (IH Hs). reflexivity.
Qed.

Lemma rstrip_sep_snoc (s : string) : Str.rstrip_sep (s ++ "/") = Str.rstrip_sep s.
Proof.
  induction s as [| c s IH]; simpl; [reflexivity |]. now rewrite IH.
Qed.

Lemma endswith_sep_rstrip (s : string) : Str.endswith_sep (Str.rstrip_sep s) = false.
Proof.
  induction s as [| c s IH]; simpl; [reflexivity |].
  destruct (Str.rstrip_sep s) as [| c' r] eqn:Hr.
  - destruct (Ascii.eqb c Str.sep) eqn:Hc; simpl; [reflexivity | exact Hc].
  - exact IH.
Qed.

Lemma endswith_sep_not_all_sep (d : string) :
  d <> "" -> Str.endswith_sep d = false -> Str.all_sep d = false.
Proof.
  induction d as [| c d IH]; [congruence |]. intros _. simpl.
  destruct d as [| c' d'].
  - intros ->. reflexivity.
  - intros Hd. rewrite (IH ltac:(discriminate) Hd). apply andb_false_r.
Qed.

Lemma startswith_sep_app (a b : string) :
  Str.startswith_sep a = true -> Str.startswith_sep (a ++ b) = true.
Proof. destruct a; simpl; [discriminate | tauto]. Qed.

Lemma startswith_sep_rstrip (s : string) :
  Str.startswith_sep s = true -> Str.all_sep s = false ->
  Str.startswith_sep (Str.rstrip_sep s) = true.
Proof.
  destruct s as [| c s]; simpl; [discriminate |].
  intros Hc Hall. rewrite Hc in Hall. simpl in Hall.
  destruct (Str.rstrip_sep s) eqn:Hr.
  - apply rstrip_sep_empty in Hr. congruence.
  - exact Hc.
Qed.

(** [rfind] on a string without separator, and on one whose last
    separator is known. *)
Lemma rfind_sep_from_none (name : string) (pos : Z) :
  has_sep name = false -> Str.rfind_sep_from name pos = (-1)%Z.
Proof.
  revert pos. induction name as [| c name IH]; simpl; [reflexivity |].
  intros pos Hsep. apply orb_false_iff in Hsep as [Hc Hname].
  rewrite (IH _ Hname), Hc. reflexivity.
Qed.

Lemma rfind_sep_from_last (x name : string) (pos : Z) :
  (0 <= pos)%Z -> has_sep name = false ->
  Str.rfind_sep_from (x ++ String "/" name) pos =
  (pos + Z.of_nat (String.length x))%Z.
Proof.
  revert pos. induction x as [| c x IH]; intros pos Hpos Hname.
  - simpl. rewrite (rfind_sep_from_none _ _ Hname). simpl. lia.
  - cbn [append String.length Str.rfind_sep_from].
    rewrite (IH (pos + 1)%Z ltac:(lia) Hname).
    destruct (0 <=? pos + 1 + Z.of_nat (String.length x))%Z eqn:Hle.
    + lia.
    + apply Z.leb_gt in Hle. lia.
Qed.

Lemma has_sep_startswith (name : string) :
  has_sep name = false -> Str.startswith_sep name = false.
Proof.
  destruct name as [| c name]; simpl; [reflexivity |].
  intros Hsep. now apply orb_false_iff in Hsep as [Hc _].
Qed.

Lemma has_sep_endswith (name : string) :
  has_sep name = false -> Str.endswith_sep name = false.
Proof.
  induction name as [| c name IH]; simpl; [reflexivity |].
  intros Hsep. apply orb_false_iff in Hsep as [Hc Hname].
  destruct name; [exact Hc | now apply IH].
Qed.

Lemma string_eqb_app_nonempty (a b : string) :
  b <> "" -> String.eqb (a ++ b) "" = false.
Proof.
  intros Hb. destruct a; simpl; [| reflexivity].
  destruct b; [now contradiction Hb | reflexivity].
Qed.

(** ** [dirname] and [join] *)

Lemma dirname_no_sep (name : string) :
  has_sep name = false -> posixpath.dirname name = "".
Proof.
  intros Hname. unfold posixpath.dirname, Str.rfind_sep, Str.slice_to.
  rewrite (rfind_sep_from_none _ _ Hname). simpl.
  now destruct name.
Qed.

Lemma dirname_last (x name : string) :
  has_sep name = false ->
  posixpath.dirname (x ++ String "/" name) =
  if Str.all_sep x then x ++ "/" else Str.rstrip_sep x.
Proof.
  intros Hname. unfold posixpath.dirname, Str.rfind_sep, Str.slice_to.
  rewrite (rfind_sep_from_last x name 0 ltac:(lia) Hname).
  replace (Z.to_nat (0 + Z.of_nat (String.length x) + 1))
    with (String.length (x ++ "/"))
    by (rewrite string_app_length; simpl; lia).
  change (x ++ String "/" name) with (x ++ "/" ++ name).
  rewrite <- string_app_assoc, substring_prefix.
  rewrite (string_eqb_app_nonempty x "/" ltac:(discriminate)).
  rewrite all_sep_app. simpl. rewrite andb_true_r.
  destruct (Str.all_sep x); simpl; [reflexivity | apply rstrip_sep_snoc].
Qed.

Lemma dirname_stripped (p : string) : stripped_dir (posixpath.dirname p).
Proof.
  unfold posixpath.dirname, stripped_dir.
  set (head := Str.slice_to p (Str.rfind_sep p + 1)).
  destruct (String.eqb head "") eqn:Hempty; simpl.
  - apply String.eqb_eq in Hempty. rewrite Hempty. now left.
  - destruct (Str.all_sep head) eqn:Hall; simpl.
    + now left.
    + right. apply endswith_sep_rstrip.
Qed.

Lemma join_component_stripped (d name : string) :
  name <> "" -> has_sep name = false ->
  stripped_dir (posixpath.join d [name]).
Proof.
  intros Hne Hname. right. unfold posixpath.join, posixpath.join_step.
  cbn [fold_left]. rewrite (has_sep_startswith _ Hname).
  destruct (String.eqb d "" || Str.endswith_sep d)%bool.
  - rewrite (endswith_sep_app d name Hne). now apply has_sep_endswith.
  - rewrite <- string_app_assoc, (endswith_sep_app (d ++ "/") name Hne).
    now apply has_sep_endswith.
Qed.

Lemma dirname_join_one (d name : string) :
  stripped_dir d ->
  has_sep name = false ->
  posixpath.dirname (posixpath.join d [name]) = d.
Proof.
  intros Hd Hname. unfold posixpath.join, posixpath.join_step. simpl.
  rewrite (has_sep_startswith _ Hname).
  destruct (String.eqb d "") eqn:Hempty; simpl.
  - apply String.eqb_eq in Hempty. subst d. simpl.
    now apply dirname_no_sep.
  - assert (d <> "") as Hne by (intros ->; discriminate Hempty).
    destruct (Str.endswith_sep d) eqn:Hend.
    + destruct Hd as [Hall | Hd]; [| congruence].
      destruct (endswith_sep_snoc d Hend) as [x ->].
      rewrite string_app_assoc. simpl.
      rewrite (dirname_last x name Hname).
      rewrite all_sep_app in Hall. apply andb_true_iff in Hall as [Hall _].
      now rewrite Hall.
    + simpl. rewrite (dirname_last d name Hname).
      rewrite (endswith_sep_not_all_sep d Hne Hend).
      now apply rstrip_sep_unchanged.
Qed.

(** X8. Round trip of [join] and [dirname]: adding one component
    without separator to a directory as [dirname] gives it, and
    taking the directory of the result, gives the directory back;
    [dirname] always gives such a directory, and so does the join
    with a component that is not empty, so the step can be repeated. *)
Theorem dirname_join_component (d name : string) :
  stripped_dir d ->
  has_sep name = false ->
  posixpath.dirname (posixpath.join d [name]) = d /\
  (forall p, stripped_dir (posixpath.dirname p)) /\
  (name <> "" -> stripped_dir (posixpath.join d [name])).
Proof.
  intros Hd Hname. split; [now apply dirname_join_one |].
  split; [apply dirname_stripped |].
  intros Hne. now apply join_component_stripped.
Qed.

(** ** [join] is associative *)

Lemma startswith_sep_app_nonempty (a b : string) :
  a <> "" -> Str.startswith_sep (a ++ b) = Str.startswith_sep a.
Proof. destruct a; [congruence | reflexivity]. Qed.

Lemma join_step_assoc (d a b : string) :
  posixpath.join_step (posixpath.join_step d a) b =
  posixpath.join_step d (posixpath.join_step a b).
Proof.
  destruct (Str.startswith_sep b) eqn:Hb.
  { unfold posixpath.join_step at 1 3. rewrite Hb.
    unfold posixpath.join_step. now rewrite !Hb. }
  destruct (Str.startswith_sep a) eqn:Ha.
  { assert (posixpath.join_step d a = a) as ->
        by (unfold posixpath.join_step; now rewrite Ha).
    assert (Str.startswith_sep (posixpath.join_step a b) = true) as Habs.
    { unfold posixpath.join_step. rewrite Hb.
      destruct (String.eqb a "" || Str.endswith_sep a)%bool;
        now apply startswith_sep_app. }
    unfold posixpath.join_step at 2. now rewrite Habs. }
  destruct (String.eqb a "") eqn:Hempty.
  - apply String.eqb_eq in Hempty. subst a.
    assert (posixpath.join_step "" b = b) as ->
        by (unfold posixpath.join_step; now rewrite Hb).
    unfold posixpath.join_step. rewrite Hb. cbn [Str.startswith_sep].
    destruct (String.eqb d "") eqn:Hd; cbn [orb].
    + apply String.eqb_eq in Hd. subst d. reflexivity.
    + destruct (Str.endswith_sep d) eqn:Hend.
      * rewrite string_app_nil_r, Hd, Hend. reflexivity.
      * rewrite (string_eqb_app_nonempty d ("/" ++ "") ltac:(discriminate)).
        rewrite (endswith_sep_app d ("/" ++ "") ltac:(discriminate)).
        cbn [orb Str.endswith_sep Ascii.eqb Bool.eqb Str.sep append].
        now rewrite string_app_assoc.
  - assert (a <> "") as Hne by (intros ->; discriminate Hempty).
    assert (forall pre, String.eqb (pre ++ a) "" = false) as Hnonempty
        by (intros pre; now apply string_eqb_app_nonempty).
    assert (forall pre, Str.endswith_sep (pre ++ a) = Str.endswith_sep a) as Hends
        by (intros pre; now apply endswith_sep_app).
    unfold posixpath.join_step. rewrite Ha, Hb, Hempty. cbn [orb].
    destruct (String.eqb d "" || Str.endswith_sep d)%bool.
    + rewrite Hnonempty, Hends. cbn [orb].
      destruct (Str.endswith_sep a);
        rewrite (startswith_sep_app_nonempty a _ Hne), Ha;
        now rewrite !string_app_assoc.
    + rewrite <- (string_app_assoc d "/" a), Hnonempty, Hends. cbn [orb].
      destruct (Str.endswith_sep a);
        rewrite (startswith_sep_app_nonempty a _ Hne), Ha;
        now rewrite !string_app_assoc.
Qed.

Lemma join_assoc (p : list string) (d a : string) :
  posixpath.join d [posixpath.join a p] = posixpath.join d (a :: p).
Proof.
  unfold posixpath.join. revert d a. induction p as [| b p IH]; intros d a.
  - reflexivity.
  - cbn [fold_left] in *. rewrite IH. now rewrite join_step_assoc.
Qed.

Lemma exe_path_one_join (h : host) :
  exe_path h =
  posixpath.join (posixpath.dirname (script_location h))
    ["obj-x86_64-pc-windows-msvc"; "dist"; "bin"; "lunarfox.exe"].
Proof. unfold exe_path, target_path, relative_suffix. apply join_assoc. Qed.

(** X9. [join] is associative: joining a directory with the join of
    further components is joining it with all of them at once. So the
    two joins of [run_executable] come to one join of the script's
    directory with the four components. *)
Theorem join_join (d a : string) (p : list string) :
  posixpath.join d [posixpath.join a p] = posixpath.join d (a :: p) /\
  (forall h,
      exe_path h =
      posixpath.join (posixpath.dirname (script_location h))
        ["obj-x86_64-pc-windows-msvc"; "dist"; "bin"; "lunarfox.exe"]).
Proof.
  assert (forall q x y,
             posixpath.join x [posixpath.join y q] = posixpath.join x (y :: q))
    as Hassoc.
  { unfold posixpath.join. induction q as [| b q IH]; intros x y.
    - reflexivity.
    - cbn [fold_left] in *. rewrite IH. now rewrite join_step_assoc. }
  split; [apply Hassoc |].
  intros h. unfold exe_path, target_path, relative_suffix. apply Hassoc.
Qed.

(** X10. The executable sits three directories below the directory
    of the script: going up four times from the target gives that
    directory back, for every host. *)
Theorem exe_path_four_levels_up (h : host) :
  dirname_iter 4 (exe_path h) = posixpath.dirname (script_location h) /\
  dirname_iter 1 (exe_path h) =
    posixpath.join (posixpath.dirname (script_location h))
      ["obj-x86_64-pc-windows-msvc"; "dist"; "bin"].
Proof.
  rewrite exe_path_one_join.
  set (d := posixpath.dirname (script_location h)).
  assert (stripped_dir d) as Hd by apply dirname_stripped.
  change (posixpath.join d ["obj-x86_64-pc-windows-msvc"; "dist"; "bin"; "lunarfox.exe"])
    with (posixpath.join
            (posixpath.join
               (posixpath.join
                  (posixpath.join d ["obj-x86_64-pc-windows-msvc"]) ["dist"])
               ["bin"])
            ["lunarfox.exe"]).
  change (posixpath.join d ["obj-x86_64-pc-windows-msvc"; "dist"; "bin"])
    with (posixpath.join
            (posixpath.join
               (posixpath.join d ["obj-x86_64-pc-windows-msvc"]) ["dist"])
            ["bin"]).
  cbn [dirname_iter].
  assert (forall x name, name <> "" -> has_sep name = false -> stripped_dir x ->
                         posixpath.dirname (posixpath.join x [name]) = x) as Hup
      by (intros x name _ Hname Hx; now apply dirname_join_one).
  rewrite !Hup;
    try reflexivity; try discriminate;
    repeat (apply join_component_stripped;
            [discriminate | reflexivity]);
    try exact Hd.
  split; reflexivity.
Qed.

(** ** Absolute paths *)

Lemma normpath_isabs (path : string) :
  posixpath.isabs path = true -> posixpath.isabs (posixpath.normpath path) = true.
Proof.
  unfold posixpath.isabs, posixpath.normpath.
  destruct path as [| c s]; [discriminate |]. intros Habs.
  rewrite Habs.
  change (String.eqb (String c s) "") with false. cbv iota.
  destruct (prefix "//" (String c s) && negb (prefix "///" (String c s)))%bool;
    reflexivity.
Qed.

Lemma dirname_isabs (p : string) :
  posixpath.isabs p = true -> posixpath.isabs (posixpath.dirname p) = true.
Proof.
  unfold posixpath.isabs. destruct p as [| c s]; [discriminate |].
  intros Habs. cbn [Str.startswith_sep] in Habs.
  unfold posixpath.dirname, Str.rfind_sep, Str.slice_to.
  cbn [Str.rfind_sep_from]. rewrite Habs.
  set (r := Str.rfind_sep_from s (0 + 1)).
  assert (exists k, Z.to_nat ((if (0 <=? r)%Z then r else 0%Z) + 1) = S k) as [k Hk].
  { destruct (0 <=? r)%Z eqn:Hle.
    - apply Z.leb_le in Hle. exists (Z.to_nat r). lia.
    - now exists 0%nat. }
  rewrite Hk. cbn [substring].
  change (String.eqb (String c (substring 0 k s)) "") with false.
  cbn [negb andb].
  destruct (Str.all_sep (String c (substring 0 k s))) eqn:Hall; cbn [negb].
  - exact Habs.
  - apply startswith_sep_rstrip; [exact Habs | exact Hall].
Qed.

Lemma abspath_isabs (cwd path : string) :
  posixpath.isabs cwd = true \/ posixpath.isabs path = true ->
  posixpath.isabs (posixpath.abspath cwd path) = true.
Proof.
  intros Habs. unfold posixpath.abspath. apply normpath_isabs.
  destruct (posixpath.isabs path) eqn:Hpath; [exact Hpath |].
  destruct Habs as [Hcwd | Hfalse]; [| discriminate Hfalse].
  unfold posixpath.isabs in *. unfold posixpath.join, posixpath.join_step.
  cbn [fold_left]. rewrite Hpath.
  destruct (String.eqb cwd "" || Str.endswith_sep cwd)%bool;
    now apply startswith_sep_app.
Qed.

Lemma target_path_isabs (L : string) :
  posixpath.isabs L = true -> posixpath.isabs (target_path L) = true.
Proof.
  intros Habs. rewrite target_path_explicit.
  apply startswith_sep_app. now apply dirname_isabs.
Qed.

(** ** More on the launcher *)

Section LauncherEffects.

Variable signal_name : Z -> option string.
Variable stdout_encodes : string -> bool.

(** Case analysis on a run: the script location, the file test, the
    fate of the child, its return code and the codec of standard
    output. *)
Ltac effect_cases h t :=
  unfold emitted; rewrite ?run_executable_cases; cbv zeta;
  destruct (location_resolves h) eqn:Hloc;
  [ destruct (is_regular_file h t (exe_path h)) eqn:Hreg;
    [ destruct (popen h (t ++ [Ev_stat (exe_path h)])%list (exe_path h))
        as [rc | errno] eqn:Hchild;
      [ destruct (rc =? 0)%Z eqn:Hrc;
        [ | destruct (stdout_accepts stdout_encodes
                        (failure_report signal_name rc (exe_path h))) eqn:Hprint ]
      | ]
    | destruct (stdout_accepts stdout_encodes (not_found_report (exe_path h)))
        eqn:Hprint ]
  | ];
  cbn [fst snd]; rewrite ?skipn_length_app, ?skipn_all.


(** X2. No child is left behind, and no [CalledProcessError] leaves
    the function. When [run_executable] returns, and when the
    [UnicodeEncodeError] of a [print] leaves it, every program it
    launched has been waited for. When an [OSError] leaves it, either
    [os.getcwd()] raised and nothing was done at all, or the launch
    failed, so there is no child to wait for. *)
Theorem run_executable_waits (h : host) (t : list event) :
  match fst (run_executable signal_name stdout_encodes h t) with
  | Ok _ | Raise (UnicodeEncodeError _) =>
      waits_of (emitted (run_executable signal_name stdout_encodes) h t) =
      launches_of (emitted (run_executable signal_name stdout_encodes) h t)
  | Raise (OSError errno filename) =>
      waits_of (emitted (run_executable signal_name stdout_encodes) h t) = [] /\
      ((location_resolves h = false /\
        emitted (run_executable signal_name stdout_encodes) h t = []) \/
       (location_resolves h = true /\
        filename = exe_path h /\
        popen h (t ++ [Ev_stat (exe_path h)])%list (exe_path h) = Launch_failed errno))
  | Raise (CalledProcessError _ _) => False
  end.
Proof.
  effect_cases h t; cbn [waits_of launches_of]; try reflexivity.
  - split; [reflexivity |]. right. repeat split.
  - split; [reflexivity |]. left. split; reflexivity.
Qed.

(** X3. [run_executable] prints nothing exactly in these cases:
    [os.path.abspath(__file__)] raised; or a regular file is at the
    target and the child did not end with a status other than 0 whose
    report standard output can encode; or no regular file is at the
    target and standard output cannot encode the report. *)
Theorem run_executable_silent_iff (h : host) (t : list event) :
  stdout_of (emitted (run_executable signal_name stdout_encodes) h t) = "" <->
  location_resolves h = false \/
  (is_regular_file h t (exe_path h) = true /\
   (forall rc,
       popen h (t ++ [Ev_stat (exe_path h)])%list (exe_path h) = Exited rc ->
       rc <> 0%Z ->
       stdout_accepts stdout_encodes
         (failure_report signal_name rc (exe_path h)) = false)) \/
  (is_regular_file h t (exe_path h) = false /\
   stdout_accepts stdout_encodes (not_found_report (exe_path h)) = false).
Proof.
  effect_cases h t; cbn [stdout_of].
  - (* status 0 *)
    apply Z.eqb_eq in Hrc. subst rc. split; [| reflexivity].
    intros _. right. left. split; [reflexivity |].
    intros rc Heq Hne. congruence.
  - (* report of a failed child, printed *)
    apply Z.eqb_neq in Hrc. split.
    + intros Hout. cbn in Hout. discriminate Hout.
    + intros [Hfalse | [[_ Hsilent] | [Hfalse _]]]; try discriminate Hfalse.
      specialize (Hsilent rc eq_refl Hrc). congruence.
  - (* report of a failed child, not encodable *)
    split; [| reflexivity]. intros _. right. left. split; [reflexivity |].
    intros rc' Heq _. injection Heq as <-. exact Hprint.
  - (* failed launch *)
    split; [| reflexivity]. intros _. right. left. split; [reflexivity |].
    discriminate.
  - (* report of a missing file, printed *)
    split.
    + intros Hout. cbn in Hout. discriminate Hout.
    + intros [Hfalse | [[Hfalse _] | [_ Hfalse]]]; discriminate Hfalse.
  - (* report of a missing file, not encodable *)
    split; [| reflexivity]. intros _. right. right. split; reflexivity.
  - (* no script location *)
    split; [| reflexivity]. intros _. now left.
Qed.

Lemma launches_at_target (h : host) (t : list event) (p : string) :
  In p (launches_of (emitted (run_executable signal_name stdout_encodes) h t)) ->
  p = exe_path h.
Proof.
  effect_cases h t; cbn [launches_of In]; intros Hin;
    try contradiction; destruct Hin as [Hp | []]; now symmetry.
Qed.

(** X4. With an absolute working directory (as [os.getcwd()] gives
    it) or an absolute [__file__], the target is an absolute path, and
    so is every program launched. *)
Theorem exe_path_absolute (h : host) (t : list event) :
  posixpath.isabs (getcwd h) = true \/ posixpath.isabs (file__ h) = true ->
  posixpath.isabs (exe_path h) = true /\
  (forall p,
      In p (launches_of (emitted (run_executable signal_name stdout_encodes) h t)) ->
      posixpath.isabs p = true).
Proof.
  intros Habs.
  assert (posixpath.isabs (exe_path h) = true) as Hexe
      by (apply target_path_isabs, abspath_isabs, Habs).
  split; [exact Hexe |].
  intros p Hin. now rewrite (launches_at_target h t p Hin).
Qed.

(** X5. Whatever is launched lies under the directory of the script
    and is the file [obj-x86_64-pc-windows-msvc/dist/bin/lunarfox.exe]
    there: the launched path is that directory, a separator where one
    is needed, and that suffix. *)
Theorem launched_under_script_dir (h : host) (t : list event) (p : string) :
  In p (launches_of (emitted (run_executable signal_name stdout_encodes) h t)) ->
  prefix (posixpath.dirname (script_location h)) p = true /\
  exists j,
    (j = "" \/ j = "/") /\
    p = posixpath.dirname (script_location h) ++ j
          ++ "obj-x86_64-pc-windows-msvc/dist/bin/lunarfox.exe".
Proof.
  intros Hin. rewrite (launches_at_target h t p Hin).
  unfold exe_path. rewrite target_path_explicit. split.
  - apply prefix_correct. apply substring_prefix.
  - destruct (String.eqb (posixpath.dirname (script_location h)) "" ||
              Str.endswith_sep (posixpath.dirname (script_location h)))%bool.
    + exists "". split; [now left | reflexivity].
    + exists "/". split; [now right | reflexivity].
Qed.

(** X6. With an absolute [__file__] the working directory plays no
    part: started from any directory, [run_executable] does the
    same. *)
Theorem run_executable_any_cwd (h : host) (cwd : string) (t : list event) :
  posixpath.isabs (file__ h) = true ->
  run_executable signal_name stdout_encodes (with_cwd h cwd) t =
  run_executable signal_name stdout_encodes h t.
Proof.
  intros Habs.
  assert (exe_path (with_cwd h cwd) = exe_path h) as Hp.
  { unfold exe_path, script_location, posixpath.abspath. cbn [with_cwd file__ getcwd].
    now rewrite Habs. }
  assert (location_resolves (with_cwd h cwd) = location_resolves h) as Hloc
      by reflexivity.
  rewrite !run_executable_cases. cbv zeta. rewrite Hp, Hloc. reflexivity.
Qed.

(** X7. Every line [run_executable] prints is an error report: it
    starts with ["Error: The executable "] and holds the target
    path. *)
Theorem printed_lines_are_reports (h : host) (t : list event) (text : string) :
  In text (printed_lines (emitted (run_executable signal_name stdout_encodes) h t)) ->
  prefix "Error: The executable " text = true /\
  Str.contains text (exe_path h).
Proof.
  effect_cases h t; cbn [printed_lines In]; intros Hin;
    try contradiction; destruct Hin as [<- | []].
  - split; [reflexivity |].
    apply contains_app_r.
    apply (proj1 (CalledProcessError_str_contains signal_name rc (exe_path h))).
  - split; [reflexivity |].
    apply contains_app_r, contains_refl.
Qed.

End LauncherEffects.

(** ** The further theorems at concrete inputs *)

Lemma dirname_join_component_witness :
  posixpath.dirname (posixpath.join "/opt/app" ["bin"]) = "/opt/app".
Proof.
  exact (proj1 (dirname_join_component "/opt/app" "bin"
                  (or_intror eq_refl) eq_refl)).
Defined.

Lemma exe_path_absolute_witness :
  posixpath.isabs (exe_path (relative_host None (Exited 0))) = true.
Proof.
  exact (proj1 (exe_path_absolute linux_signal_name utf8_stdout
                  (relative_host None (Exited 0)) [] (or_introl eq_refl))).
Defined.

Lemma launched_under_script_dir_witness :
  prefix "/opt/app"
    "/opt/app/obj-x86_64-pc-windows-msvc/dist/bin/lunarfox.exe" = true.
Proof.
  exact (proj1 (launched_under_script_dir linux_signal_name utf8_stdout
                  (example_host (Some S_IFREG) (Exited 0)) []
                  "/opt/app/obj-x86_64-pc-windows-msvc/dist/bin/lunarfox.exe"
                  (or_introl eq_refl))).
Defined.

Lemma run_executable_any_cwd_witness :
  run_executable linux_signal_name utf8_stdout
    (with_cwd (example_host (Some S_IFREG) (Exited 1)) "/tmp") [] =
  run_executable linux_signal_name utf8_stdout
    (example_host (Some S_IFREG) (Exited 1)) [].
Proof.
  exact (run_executable_any_cwd linux_signal_name utf8_stdout
           (example_host (Some S_IFREG) (Exited 1)) "/tmp" [] eq_refl).
Defined.

Lemma printed_lines_are_reports_witness :
  prefix "Error: The executable "
    "Error: The executable was not found at /opt/app/obj-x86_64-pc-windows-msvc/dist/bin/lunarfox.exe"
  = true.
Proof.
  exact (proj1 (printed_lines_are_reports linux_signal_name utf8_stdout
                  (example_host None (Exited 0)) []
                  "Error: The executable was not found at /opt/app/obj-x86_64-pc-windows-msvc/dist/bin/lunarfox.exe"
                  (or_introl eq_refl))).
Defined.
